(** * The tool-orchestration host of nativeMcpClientServer

    A shallow embedding of the two host programs of the repository,
    [src/mcp-host.py] (module [Root]) and [src/host/mcp-host.py] (module
    [Host]), and the properties of the specification checked against them.

    Conventions of the embedding.
    - A Python [str] is the Rocq string of its UTF-8 encoding: [strip],
      [len] and slices work on the code points it encodes; [lower] and
      [upper] are functions of the runtime.
    - JSON values decoded by [json.loads] are values of [json]; numbers are
      integers (floating point is not modelled).
    - The world outside the host (the completion backends, the tool
      providers, the configuration file) is a record of functions: what
      the host sends determines what it receives.
    - In [src/host/mcp-host.py] the history of a connection is a local of
      its handler and a frame is processed in one step.  In
      [src/mcp-host.py] the history is shared and the handler of a frame is
      suspended while a tool runs: [Root.begin_turn] and [Root.finish_turn]
      are the two parts of a turn, between which the other connections may
      write the history; [Root.handle_data], [Root.step] and [Root.run]
      describe the turns that nothing interrupts.
    - [logger] calls and debugging [print]s are left out, except in the
      event-stream loop, whose log is the record of the decoded events. *)

From Stdlib Require Import ZArith Ascii String DecimalString.
From stdpp Require Import base list strings gmap.

Set Warnings "-register-all".
Local Open Scope Z_scope.

(* ================================================================== *)
(** * Python strings *)
(* ================================================================== *)

Module Py.

Definition nl : string := String "010"%char EmptyString.
Definition dq : string := String "034"%char EmptyString.
Definition sq : string := String "039"%char EmptyString.

(** ** Code points *)

(** The string of the bytes [l]. *)
Definition bytes (l : list nat) : string :=
  fold_right (fun n s => String (ascii_of_nat n) s) EmptyString l.

(** A byte [10xxxxxx]: it continues the encoding of a code point. *)
Definition is_continuation (c : ascii) : bool :=
  let n := nat_of_ascii c in (128 <=? n)%nat && (n <? 192)%nat.

Definition starts_continued (s : string) : bool :=
  match s with
  | String d _ => is_continuation d
  | EmptyString => false
  end.

(** [c] put in front of the first string of [l]. *)
Definition attach (c : ascii) (l : list string) : list string :=
  match l with
  | g :: gs => String c g :: gs
  | [] => [String c EmptyString]
  end.

(** The code points of a string, each as the bytes that encode it: a code
    point starts at every byte that is not a continuation byte. *)
Fixpoint code_points (s : string) : list string :=
  match s with
  | EmptyString => []
  | String c s' =>
      if starts_continued s' then attach c (code_points s')
      else String c EmptyString :: code_points s'
  end.

(** The string made of the code points [l]. *)
Fixpoint implode (l : list string) : string :=
  match l with
  | [] => EmptyString
  | g :: gs => g +:+ implode gs
  end.

(** [len(s)]. *)
Definition len (s : string) : nat := length (code_points s).

(** ** White space *)

(** The code points for which [str.isspace] holds: U+0009 to U+000D,
    U+001C to U+0020, U+0085, U+00A0, U+1680, U+2000 to U+200A, U+2028,
    U+2029, U+202F, U+205F and U+3000. *)
Definition whitespace : list string :=
  [ bytes [9]; bytes [10]; bytes [11]; bytes [12]; bytes [13];
    bytes [28]; bytes [29]; bytes [30]; bytes [31]; bytes [32];
    bytes [194; 133]; bytes [194; 160]; bytes [225; 154; 128];
    bytes [226; 128; 128]; bytes [226; 128; 129]; bytes [226; 128; 130];
    bytes [226; 128; 131]; bytes [226; 128; 132]; bytes [226; 128; 133];
    bytes [226; 128; 134]; bytes [226; 128; 135]; bytes [226; 128; 136];
    bytes [226; 128; 137]; bytes [226; 128; 138];
    bytes [226; 128; 168]; bytes [226; 128; 169]; bytes [226; 128; 175];
    bytes [226; 129; 159]; bytes [227; 128; 128] ]%nat.

(** [str.isspace] on one code point. *)
Definition is_space (cp : string) : bool :=
  existsb (String.eqb cp) whitespace.

(** The code points of [l] from the first one that is not white space. *)
Fixpoint drop_spaces (l : list string) : list string :=
  match l with
  | [] => []
  | cp :: l' => if is_space cp then drop_spaces l' else l
  end.

(** The code points of [l] without the white space at its two ends. *)
Definition trim (l : list string) : list string :=
  rev (drop_spaces (rev (drop_spaces l))).

(** [s.strip()]. *)
Definition strip (s : string) : string := implode (trim (code_points s)).

(** ** Letter case *)

Definition lower_char (c : ascii) : ascii :=
  let n := nat_of_ascii c in
  if ((65 <=? n)%nat && (n <=? 90)%nat) then ascii_of_nat (n + 32) else c.

Definition upper_char (c : ascii) : ascii :=
  let n := nat_of_ascii c in
  if ((97 <=? n)%nat && (n <=? 122)%nat) then ascii_of_nat (n - 32) else c.

Fixpoint map_chars (f : ascii -> ascii) (s : string) : string :=
  match s with
  | EmptyString => EmptyString
  | String c s' => String (f c) (map_chars f s')
  end.

(** A string of ASCII characters. *)
Fixpoint is_ascii (s : string) : bool :=
  match s with
  | EmptyString => true
  | String c s' => (nat_of_ascii c <? 128)%nat && is_ascii s'
  end.

(** [s.lower()] and [s.upper()] follow the character tables of the
    interpreter, which are not written out here: the two functions are
    taken from the runtime.  What is used of them is what they do on a
    string of ASCII characters: the letters [A] to [Z], or [a] to [z], are
    mapped and nothing else changes. *)
Class Casing := {
  lower : string -> string;
  upper : string -> string;
  lower_ascii :
    forall s, is_ascii s = true -> lower s = map_chars lower_char s;
  upper_ascii :
    forall s, is_ascii s = true -> upper s = map_chars upper_char s;
}.

(** ** Prefixes and substrings *)

(** [s.startswith(p)]. *)
Definition startswith (p s : string) : bool := String.prefix p s.

(** [p in s] on strings. *)
Fixpoint contains (p s : string) : bool :=
  match s with
  | EmptyString => String.prefix p EmptyString
  | String _ s' => String.prefix p s || contains p s'
  end.

(** [s[n:]], for a string [s] whose first [n] characters are ASCII. *)
Fixpoint drop_chars (n : nat) (s : string) : string :=
  match n, s with
  | O, _ => s
  | S n', String _ s' => drop_chars n' s'
  | S _, EmptyString => EmptyString
  end.

(** [sep.join(l)]. *)
Definition join (sep : string) (l : list string) : string :=
  String.concat sep l.

(** [str(n)] for a natural number and for an integer. *)
Definition str_nat (n : nat) : string :=
  NilEmpty.string_of_uint (Nat.to_uint n).

Definition str_Z (z : Z) : string :=
  NilZero.string_of_int (Z.to_int z).

(** Truth value of a string: [bool(s)]. *)
Definition nonempty (s : string) : bool :=
  match s with EmptyString => false | _ => true end.

End Py.

(* ================================================================== *)
(** * JSON values *)
(* ================================================================== *)

Inductive json : Type :=
| JNull
| JBool (b : bool)
| JNum (z : Z)
| JStr (s : string)
| JList (l : list json)
| JObj (d : list (string * json)).

(** [d.get(k)] on a decoded object: the entries are kept in an association
    list, the first entry of a key is its value. *)
Fixpoint dict_get (k : string) (d : list (string * json)) : option json :=
  match d with
  | [] => None
  | (k', v) :: d' => if String.eqb k k' then Some v else dict_get k d'
  end.

(** [bool(v)]: [None], [False], [0], the empty string, list and dict are false. *)
Definition py_truth (v : json) : bool :=
  match v with
  | JNull => false
  | JBool b => b
  | JNum z => negb (z =? 0)
  | JStr s => Py.nonempty s
  | JList l => match l with [] => false | _ => true end
  | JObj d => match d with [] => false | _ => true end
  end.

(** [v == s] for a string literal [s]. *)
Definition is_str (s : string) (v : json) : bool :=
  match v with JStr s' => String.eqb s s' | _ => false end.

(* ================================================================== *)
(** * Exceptions *)
(* ================================================================== *)

(** The exception classes of [httpx] the host can meet.  In [httpx],
    [TimeoutException] derives from [TransportError], which derives from
    [RequestError]; [InvalidURL], [CookieConflict] and [StreamError] derive
    from [Exception] directly. *)
Inductive httpx_exn : Type :=
| ConnectTimeout | ReadTimeout | WriteTimeout | PoolTimeout
| ConnectError | ReadError | WriteError | CloseError
| LocalProtocolError | RemoteProtocolError
| ProxyError | UnsupportedProtocol
| DecodingError | TooManyRedirects
| InvalidURL | CookieConflict | StreamError.

(** [isinstance(e, httpx.TimeoutException)]. *)
Definition is_TimeoutException (c : httpx_exn) : bool :=
  match c with
  | ConnectTimeout | ReadTimeout | WriteTimeout | PoolTimeout => true
  | _ => false
  end.

(** [isinstance(e, httpx.RequestError)]. *)
Definition is_RequestError (c : httpx_exn) : bool :=
  match c with
  | InvalidURL | CookieConflict | StreamError => false
  | _ => true
  end.

(** A raised exception: its class and, where the host prints it, [str(e)].
    [json.JSONDecodeError] derives from [ValueError]; [ValueError] here is
    a [ValueError] that is not a [JSONDecodeError]. *)
Inductive exn : Type :=
| JSONDecodeError
| ValueError (msg : string)
| RecursionError
| KeyError (k : string)
| TypeError
| AttributeError
| IndexError
| Httpx (c : httpx_exn) (msg : string)
| OtherException (msg : string).

(** Computations that return or raise. *)
Inductive res (A : Type) : Type :=
| Ok (a : A)
| Raise (e : exn).
Arguments Ok {A} a.
Arguments Raise {A} e.

#[global] Instance res_ret : MRet res := fun A a => Ok a.
#[global] Instance res_bind : MBind res := fun A B f m =>
  match m with Ok a => f a | Raise e => Raise e end.

(** [k in v] and [v[k]] for a string [k] and a decoded JSON value [v]. *)
Definition py_in (k : string) (v : json) : res bool :=
  match v with
  | JObj d => Ok (bool_decide (is_Some (dict_get k d)))
  | JList l => Ok (existsb (is_str k) l)
  | JStr s => Ok (Py.contains k s)
  | _ => Raise TypeError
  end.

Definition py_index (k : string) (v : json) : res json :=
  match v with
  | JObj d => match dict_get k d with Some x => Ok x | None => Raise (KeyError k) end
  | _ => Raise TypeError
  end.

(** The functions of the Python runtime the hosts call. *)
Class PyRuntime := {
  (** [s.lower()] and [s.upper()] *)
  py_casing :: Py.Casing;
  (** [json.loads(s)]: the value, or the exception raised, which is
      [json.JSONDecodeError] for a text that is not JSON, and another one
      ([RecursionError], [ValueError]) for a text the decoder gives up on *)
  json_loads : string -> res json;
  (** [json.dumps(v, indent=2)] *)
  json_dumps : json -> string;
  (** [str(v)], as an f-string field formats it *)
  py_str : json -> string;
}.

(* ================================================================== *)
(** * Data shared by the two hosts *)
(* ================================================================== *)

(** A tool descriptor, as the discovery contract gives it; [url] is the
    key the static descriptors of [src/host/mcp-host.py] add. *)
Record tool : Type := {
  name : string;
  description : string;
  parameters : json;
  url : option string;
}.

(** An entry of [tool_servers] in [config.yaml]. *)
Record server : Type := {
  srv_url : string;
  srv_name : option string;
  srv_path : option string;
}.

(** The outcome of [requests.get(f"{server_url}/tools")]: the call raises,
    or answers with a status and a body; the body is [response.json()], a
    list of descriptors, or raises. *)
Inductive discovery_reply : Type :=
| DiscoveryRaises (e : exn)
| DiscoveryStatus (status_code : Z) (body : res (list tool)).

(** The websocket events of a host: a peer connects, sends a frame, or
    goes away. *)
Inductive event : Type :=
| Connect (c : nat)
| Frame (c : nat) (raw : string)
| Disconnect (c : nat).

(* ================================================================== *)
(** * [src/mcp-host.py] *)
(* ================================================================== *)

Module Root.

(** An entry of [messages_history]: [{"role": ..., "content": ...}]. *)
Record message : Type := {
  role : string;
  content : json;
}.

(** The outcome of the streaming [POST {server_url}/run]: the request
    raises, or answers with a status and the lines [aiter_lines] yields;
    [broken] says that reading raises after the last of these lines. *)
Inductive run_reply : Type :=
| RunRaises (e : exn)
| RunStream (status_code : Z) (lines : list string) (broken : option exn).

(** The outcome of [requests.post(f"{ollama_url}/api/chat", ...)]; the
    body is [response.json()["message"]["content"]], or raises. *)
Inductive ollama_reply : Type :=
| OllamaRaises (e : exn)
| OllamaStatus (status_code : Z) (body : res json).

(** What lies outside the host. *)
Record world : Type := {
  tool_servers : list server;
  (** [USE_GEMINI and GEMINI_API_KEY] *)
  use_gemini : bool;
  requests_get : string -> discovery_reply;
  run_stream : string -> run_reply;
  (** [query_gemini(message)], which also reads [messages_history[:-1]];
      it catches every exception and returns a string *)
  query_gemini : string -> list message -> string;
  (** the chat request carries [messages_history] and [available_tools] *)
  ollama_chat : list message -> list tool -> ollama_reply;
}.

(** ** [discover_tools] *)

(** One turn of the loop over [tool_servers]. *)
Definition discover_server (w : world) (tools : list tool) (s : server)
  : list tool :=
  match requests_get w (srv_url s +:+ "/tools") with
  | DiscoveryStatus status_code body =>
      if status_code =? 200 then
        match body with
        | Ok server_tools => tools ++ server_tools
        | Raise _ => tools
        end
      else tools
  | DiscoveryRaises _ => tools
  end.

Definition discover_tools (w : world) : list tool :=
  fold_left (discover_server w) (tool_servers w) [].

(** ** The event stream of a tool run *)

(** The lines the loop logs. *)
Inductive log_entry : Type :=
| Received_products_data (v : json)
| Error_from_SSE_stream (e : json)
| Failed_to_parse_SSE_data (line : string)
| SSE_stream_closed.

Record sse_state : Type := {
  products_data : json;
  sse_log : list log_entry;
}.

Definition sse_init : sse_state :=
  {| products_data := JNull; sse_log := [] |}.

Definition logged (e : log_entry) (st : sse_state) : sse_state :=
  {| products_data := products_data st; sse_log := sse_log st ++ [e] |}.

(** How the body of the loop ends on one line. *)
Inductive flow : Type :=
| Continue (st : sse_state)
| Break (st : sse_state)
| Raised (e : exn).

Section Runtime.
Context {rt : PyRuntime}.

(** The body of [async for line in response.aiter_lines()]. *)
Definition sse_line (st : sse_state) (line : string) : flow :=
  if Py.startswith "data: " line then
    match json_loads (Py.drop_chars 6 line) with
    | Raise JSONDecodeError =>
        Continue (logged (Failed_to_parse_SSE_data line) st)
    | Raise e => Raised e
    | Ok data =>
        match py_in "result" data with
        | Raise e => Raised e
        | Ok true =>
            match py_index "result" data with
            | Raise e => Raised e
            | Ok v =>
                Continue (logged (Received_products_data v)
                            {| products_data := v; sse_log := sse_log st |})
            end
        | Ok false =>
            match py_in "error" data with
            | Raise e => Raised e
            | Ok true =>
                match py_index "error" data with
                | Raise e => Raised e
                | Ok err => Continue (logged (Error_from_SSE_stream err) st)
                end
            | Ok false => Continue st
            end
        end
    end
  else if Py.startswith "event: close" line then
    Break (logged SSE_stream_closed st)
  else Continue st.

(** The loop over the lines of the stream. *)
Fixpoint sse_loop (st : sse_state) (lines : list string)
  (broken : option exn) : res sse_state :=
  match lines with
  | [] => match broken with Some e => Raise e | None => Ok st end
  | line :: rest =>
      match sse_line st line with
      | Continue st' => sse_loop st' rest broken
      | Break st' => Ok st'
      | Raised e => Raise e
      end
  end.

(** ** Formatting the payload *)

(** One turn of [for i, product in enumerate(products_data[:10], 1)]:
    what it adds to [response_text]. *)
Definition product_entry (i : nat) (product : json) : res string :=
  match product with
  | JObj d =>
      Ok (Py.str_nat i +:+ ". "
          +:+ py_str (default (JStr "Unknown") (dict_get "product_name" d))
          +:+ (if bool_decide (is_Some (dict_get "brand_name" d))
               then " by " +:+ py_str (default (JStr "Unknown")
                                         (dict_get "brand_name" d))
               else EmptyString)
          +:+ Py.nl +:+ Py.nl)
  | _ => Raise AttributeError
  end.

Fixpoint enumerate_products (i : nat) (products : list json)
  (response_text : string) : res string :=
  match products with
  | [] => Ok response_text
  | product :: rest =>
      match product_entry i product with
      | Ok entry => enumerate_products (S i) rest (response_text +:+ entry)
      | Raise e => Raise e
      end
  end.

Definition found_header : string :=
  "Here are the products I found:" +:+ Py.nl +:+ Py.nl.

(** The body of [if products_data:]. *)
Definition format_products (products_data : json) : res string :=
  let response_text := found_header in
  match products_data with
  | JList l =>
      response_text ← enumerate_products 1 (take 10 l) response_text;
      if (10 <? length l)%nat then
        Ok (response_text +:+ "(Showing 10 of "
            +:+ Py.str_nat (length l) +:+ " products)")
      else if (length l =? 0)%nat then Ok "No products were found."
      else Ok response_text
  | _ =>
      Ok (response_text +:+ "Found product data: "
          +:+ json_dumps products_data)
  end.

(** What follows the loop: the reply, or [None]. *)
Definition after_stream (products_data : json) : option string :=
  if py_truth products_data then
    match format_products products_data with
    | Ok response_text => Some response_text
    | Raise _ => None
    end
  else None.

(** ** [check_and_use_tools] *)

Definition is_get_products (t : tool) : bool :=
  String.eqb (name t) "get_products".

Definition triggers (message_lower : string) : bool :=
  Py.contains "get products" message_lower
  || Py.contains "fetch products" message_lower
  || Py.contains "show products" message_lower.

(** The tool the message selects: the first descriptor named
    [get_products], when the message holds a trigger phrase. *)
Definition selected_tool (available_tools : list tool) (message : string)
  : option tool :=
  let message_lower := Py.strip (Py.lower message) in
  if triggers message_lower then find is_get_products available_tools
  else None.

Definition use_get_products (w : world) : option string :=
  match tool_servers w with
  | [] => None
  | s :: _ =>
      match run_stream w (srv_url s +:+ "/run") with
      | RunRaises _ => None
      | RunStream status_code lines broken =>
          if status_code =? 200 then
            match sse_loop sse_init lines broken with
            | Ok st => after_stream (products_data st)
            | Raise _ => None
            end
          else None
      end
  end.

Definition check_and_use_tools (w : world) (available_tools : list tool)
  (message : string) : option string :=
  match selected_tool available_tools message with
  | Some _ => use_get_products w
  | None => None
  end.

(** ** [handle_client] *)

(** The text of an [{"error": ...}] frame. *)
Inductive error_text : Type :=
| Unknown_message_format
| Error_processing_message (e : exn)
| Ollama_request_failed (status_code : Z).

(** The frames the host sends. *)
Inductive frame : Type :=
| Llm_response (user_message : json) (response : json)
| Error_frame (e : error_text).

(** The user message of a decoded frame; [None] is the unknown
    format. *)
Definition user_message_of (data : json) : res (option json) :=
  has_type ← py_in "type" data;
  is_user_message ←
    (if has_type : bool then
       t ← py_index "type" data; Ok (is_str "user_message" t)
     else Ok false);
  if is_user_message : bool then
    c ← py_index "content" data; Ok (Some c)
  else
    has_message ← py_in "message" data;
    if has_message : bool then
      m ← py_index "message" data; Ok (Some m)
    else Ok None.

Definition user (c : json) : message :=
  {| role := "user"; content := c |}.
Definition assistant (c : json) : message :=
  {| role := "assistant"; content := c |}.

(** The turn after the tools gave nothing: the completion backend. *)
Definition use_llm (w : world) (available_tools : list tool)
  (messages_history : list message) (user_message : string)
  : list message * list frame :=
  if use_gemini w then
    let response_text :=
      query_gemini w user_message (removelast messages_history) in
    (messages_history ++ [assistant (JStr response_text)],
     [Llm_response (JStr user_message) (JStr response_text)])
  else
    match ollama_chat w messages_history available_tools with
    | OllamaRaises e =>
        (messages_history, [Error_frame (Error_processing_message e)])
    | OllamaStatus status_code body =>
        if status_code =? 200 then
          match body with
          | Ok c =>
              (messages_history ++ [assistant c],
               [Llm_response (JStr user_message) c])
          | Raise e =>
              (messages_history,
               [Error_frame (Error_processing_message e)])
          end
        else
          (messages_history,
           [Error_frame (Ollama_request_failed status_code)])
    end.

(** The body of [async for message in websocket] on a decoded frame, when
    no other handler runs during the turn: the history after the frame and
    the frames sent back. *)
Definition handle_data (w : world) (available_tools : list tool)
  (messages_history : list message) (data : json)
  : list message * list frame :=
  match user_message_of data with
  | Raise e =>
      (messages_history, [Error_frame (Error_processing_message e)])
  | Ok None => (messages_history, [Error_frame Unknown_message_format])
  | Ok (Some user_message) =>
      let messages_history := messages_history ++ [user user_message] in
      match user_message with
      | JStr text =>
          match check_and_use_tools w available_tools text with
          | Some (String _ _ as tool_response) =>
              (messages_history ++ [assistant (JStr tool_response)],
               [Llm_response user_message (JStr tool_response)])
          | _ => use_llm w available_tools messages_history text
          end
      | _ =>
          (messages_history,
           [Error_frame (Error_processing_message AttributeError)])
      end
  end.

(** *** A turn in two parts

    [await self.check_and_use_tools(user_message)] suspends the handler
    while a tool runs, and the handlers of the other connections append to
    [messages_history] meanwhile: what follows the [await] reads the
    history as it is then.  [handle_data] is the turn in which nothing is
    appended meanwhile. *)

(** The first part, up to the [await]: the frame is answered at once, or
    the user message is appended and the tools are checked for [text]. *)
Inductive begun : Type :=
| Answered (messages_history : list message) (out : list frame)
| Checking (messages_history : list message) (text : string).

Definition begin_turn (messages_history : list message) (data : json)
  : begun :=
  match user_message_of data with
  | Raise e =>
      Answered messages_history [Error_frame (Error_processing_message e)]
  | Ok None => Answered messages_history [Error_frame Unknown_message_format]
  | Ok (Some user_message) =>
      let messages_history := messages_history ++ [user user_message] in
      match user_message with
      | JStr text => Checking messages_history text
      | _ =>
          Answered messages_history
            [Error_frame (Error_processing_message AttributeError)]
      end
  end.

(** The second part, from the return of [check_and_use_tools] on;
    [messages_history] is the history as it is at that time. *)
Definition finish_turn (w : world) (available_tools : list tool)
  (messages_history : list message) (text : string)
  : list message * list frame :=
  match check_and_use_tools w available_tools text with
  | Some (String _ _ as tool_response) =>
      (messages_history ++ [assistant (JStr tool_response)],
       [Llm_response (JStr text) (JStr tool_response)])
  | _ => use_llm w available_tools messages_history text
  end.

Definition handle_message (w : world) (available_tools : list tool)
  (messages_history : list message) (raw : string)
  : list message * list frame :=
  match json_loads raw with
  | Ok data => handle_data w available_tools messages_history data
  | Raise e => (messages_history, [Error_frame (Error_processing_message e)])
  end.

(** ** The host *)

(** The attributes of [MCPHost] that change or are read while it
    serves: one [clients] set and one [messages_history] list for all
    connections. *)
Record state : Type := {
  available_tools : list tool;
  clients : gset nat;
  messages_history : list message;
}.

(** [MCPHost.__init__]. *)
Definition init (w : world) : state :=
  {| available_tools := discover_tools w;
     clients := ∅;
     messages_history := [] |}.

(** One websocket event: the state after it and the frames sent, each
    with the connection it is sent on. *)
Definition step (w : world) (st : state) (ev : event)
  : state * list (nat * frame) :=
  match ev with
  | Connect c =>
      ({| available_tools := available_tools st;
          clients := clients st ∪ {[c]};
          messages_history := messages_history st |}, [])
  | Disconnect c =>
      ({| available_tools := available_tools st;
          clients := clients st ∖ {[c]};
          messages_history := messages_history st |}, [])
  | Frame c raw =>
      if bool_decide (c ∈ clients st) then
        let '(h, out) :=
          handle_message w (available_tools st) (messages_history st) raw in
        ({| available_tools := available_tools st;
            clients := clients st;
            messages_history := h |}, pair c <$> out)
      else (st, [])
  end.

Fixpoint run (w : world) (st : state) (evs : list event)
  : state * list (nat * frame) :=
  match evs with
  | [] => (st, [])
  | ev :: rest =>
      let '(st1, out1) := step w st ev in
      let '(st2, out2) := run w st1 rest in
      (st2, out1 ++ out2)
  end.

End Runtime.

End Root.

(* ================================================================== *)
(** * [src/host/mcp-host.py] *)
(* ================================================================== *)

Module Host.

(** An entry of the [message_history] of a connection; both fields are
    strings here. *)
Record message : Type := {
  role : string;
  content : string;
}.

(** A decoded answer of a tool endpoint: it carries [formatted_content],
    or it is a legacy body, given by its [json.dumps(..., indent=2)]; or
    [response.json()] raises, with [str(e)]. *)
Inductive tool_body : Type :=
| Formatted_content (formatted_content : string)
| Legacy (dumped : string)
| Undecodable (msg : string).

(** The outcome of [client.get(tool_url)] under the 10 s timeout: the call
    raises an exception of [httpx] or another one ([None]), with its
    [str(e)], or answers. *)
Inductive get_reply : Type :=
| GetRaises (c : option httpx_exn) (msg : string)
| GetStatus (status_code : Z) (body : tool_body).

(** What lies outside the host.  [self.messages_history] stays empty in
    this program, so [query_gemini] sends its argument only. *)
Record world : Type := {
  tool_servers : list server;
  requests_get : string -> discovery_reply;
  query_gemini : string -> string;
  http_get : string -> get_reply;
}.

(** The calls a turn makes to the outside. *)
Inductive call : Type :=
| Query_gemini (prompt : string)
| Http_get (tool_url : string).

Section Runtime.
Context {rt : PyRuntime}.

(** ** [discover_tools] *)

Definition static_tool (tool_name tool_description : string) (s : server)
  : tool :=
  {| name := tool_name;
     description := tool_description;
     parameters := JObj [];
     url := Some (srv_url s +:+ default EmptyString (srv_path s)) |}.

(** What one server adds to [tools]. *)
Definition server_tools (w : world) (s : server) : list tool :=
  let server_name := default "unknown" (srv_name s) in
  if Py.contains "eagle" (Py.lower server_name) then
    [static_tool "get_eagle_feeds"
       "Get information about eagle live feeds and webcams" s]
  else if Py.contains "product" (Py.lower server_name) then
    [static_tool "get_products" "Get information about available products" s]
  else if Py.contains "analytics" (Py.lower server_name) then
    [static_tool "get_analytics" "Get analytics data and metrics" s]
  else
    match requests_get w (srv_url s +:+ "/tools") with
    | DiscoveryStatus status_code body =>
        if status_code =? 200 then
          match body with
          | Ok discovered => discovered
          | Raise _ => []
          end
        else []
    | DiscoveryRaises _ => []
    end.

Definition discover_server (w : world) (tools : list tool) (s : server)
  : list tool :=
  tools ++ server_tools w s.

Definition discover_tools (w : world) : list tool :=
  fold_left (discover_server w) (tool_servers w) [].

(** ** [check_and_use_tools] *)

Definition indent : string := "            ".

Definition tool_line (t : tool) : string :=
  "- " +:+ name t +:+ ": " +:+ description t.

Definition tool_selection_prompt (available_tools : list tool)
  (message : string) : string :=
  let tool_descriptions := Py.join Py.nl (tool_line <$> available_tools) in
  Py.nl
  +:+ indent +:+ "Based on the user's message, determine if any of the following tools should be used:" +:+ Py.nl
  +:+ indent +:+ Py.nl
  +:+ indent +:+ tool_descriptions +:+ Py.nl
  +:+ indent +:+ Py.nl
  +:+ indent +:+ "User message: " +:+ Py.dq +:+ message +:+ Py.dq +:+ Py.nl
  +:+ indent +:+ Py.nl
  +:+ indent +:+ "If a tool should be used, respond with the tool name only. If no tool is appropriate, respond with "
      +:+ Py.dq +:+ "none" +:+ Py.dq +:+ "." +:+ Py.nl
  +:+ indent.

(** The test of the loop that looks for the selected tool. *)
Definition named_in (tool_decision : string) (t : tool) : bool :=
  Py.contains (Py.lower (name t)) tool_decision.

(** The tool a decision of the backend selects. *)
Definition selected_tool (available_tools : list tool) (response : string)
  : option tool :=
  let tool_decision := Py.lower (Py.strip response) in
  if String.eqb tool_decision "none" || negb (Py.nonempty tool_decision)
  then None
  else find (named_in tool_decision) available_tools.

Definition http_error_reply (tool_name : string) (status_code : Z) : string :=
  "I tried to use the " +:+ tool_name
  +:+ " tool, but encountered an error (HTTP " +:+ Py.str_Z status_code
  +:+ "). Please try again later.".

Definition connection_error_reply (tool_name : string) : string :=
  "I tried to use the " +:+ tool_name
  +:+ " tool, but encountered a connection error. Please check if the service is available and try again.".

Definition timeout_reply (tool_name : string) : string :=
  "The " +:+ tool_name
  +:+ " tool is taking too long to respond. Please try again later.".

Definition exception_reply (tool_name msg : string) : string :=
  "I encountered an error while using the " +:+ tool_name +:+ " tool: "
  +:+ msg +:+ ". Please try again later.".

Definition legacy_reply (dumped : string) : string :=
  "Here's the information I found:" +:+ Py.nl +:+ Py.nl
  +:+ "```json" +:+ Py.nl +:+ dumped +:+ Py.nl +:+ "```".

(** The [except] clauses of the request, in the order of the source: the
    first clause whose class matches handles the exception. *)
Definition on_exception (tool_name : string) (c : option httpx_exn)
  (msg : string) : string :=
  match c with
  | Some h =>
      if is_RequestError h then connection_error_reply tool_name
      else if is_TimeoutException h then timeout_reply tool_name
      else exception_reply tool_name msg
  | None => exception_reply tool_name msg
  end.

(** The request to the selected tool and the reply made of its answer. *)
Definition use_tool (w : world) (tool_name tool_url : string) : string :=
  match http_get w tool_url with
  | GetRaises c msg => on_exception tool_name c msg
  | GetStatus status_code body =>
      if status_code =? 200 then
        match body with
        | Formatted_content formatted_content => formatted_content
        | Legacy dumped => legacy_reply dumped
        | Undecodable msg => exception_reply tool_name msg
        end
      else http_error_reply tool_name status_code
  end.

(** [check_and_use_tools]: the reply, or [None], and the calls made. *)
Definition check_and_use_tools (w : world) (available_tools : list tool)
  (message : string) : option string * list call :=
  let prompt := tool_selection_prompt available_tools message in
  let response := query_gemini w prompt in
  match selected_tool available_tools response with
  | None => (None, [Query_gemini prompt])
  | Some t =>
      match url t with
      | None => (None, [Query_gemini prompt])
      | Some tool_url =>
          (Some (use_tool w (name t) tool_url),
           [Query_gemini prompt; Http_get tool_url])
      end
  end.

(** ** [handle_client] *)

Inductive frame : Type :=
| System_message (content : string)
| Llm_response (user_message : string) (response : string)
| History_cleared.

Definition greeting : frame :=
  System_message "Connected to MCP Host. Type a message to begin.".

Definition user (c : string) : message := {| role := "user"; content := c |}.
Definition assistant (c : string) : message :=
  {| role := "assistant"; content := c |}.

(** [message_history[-5:]]. *)
Definition last5 (message_history : list message) : list message :=
  drop (length message_history - 5) message_history.

Definition role_line (msg : message) : string :=
  Py.upper (role msg) +:+ ": " +:+ content msg.

Definition formatted_history (message_history : list message) : string :=
  Py.join Py.nl (role_line <$> last5 message_history).

(** What a frame does to a connection: its history afterwards, the frames
    sent back and the calls made. *)
Record turn : Type := {
  history : list message;
  sent : list frame;
  calls : list call;
}.

Definition ignored (message_history : list message) : turn :=
  {| history := message_history; sent := []; calls := [] |}.

(** The branch [message_type == "user_message"] for a non-blank
    [content]. *)
Definition user_turn (w : world) (available_tools : list tool)
  (message_history : list message) (content : string) : turn :=
  let message_history := message_history ++ [user content] in
  let '(tool_response, made) :=
    check_and_use_tools w available_tools content in
  match tool_response with
  | Some (String _ _ as tool_response) =>
      {| history := message_history ++ [assistant tool_response];
         sent := [Llm_response content tool_response];
         calls := made |}
  | _ =>
      let prompt := formatted_history message_history in
      let llm_response := query_gemini w prompt in
      {| history := message_history ++ [assistant llm_response];
         sent := [Llm_response content llm_response];
         calls := made ++ [Query_gemini prompt] |}
  end.

(** The body of [async for message in websocket], on a decoded frame. *)
Definition handle_data (w : world) (available_tools : list tool)
  (message_history : list message) (data : json) : turn :=
  match data with
  | JObj d =>
      let message_type := default (JStr EmptyString) (dict_get "type" d) in
      if is_str "user_message" message_type then
        match default (JStr EmptyString) (dict_get "content" d) with
        | JStr c =>
            let content := Py.strip c in
            if Py.nonempty content
            then user_turn w available_tools message_history content
            else ignored message_history
        | _ => ignored message_history
        end
      else if is_str "clear_history" message_type then
        {| history := []; sent := [History_cleared]; calls := [] |}
      else ignored message_history
  | _ => ignored message_history
  end.

Definition handle_message (w : world) (available_tools : list tool)
  (message_history : list message) (raw : string) : turn :=
  match json_loads raw with
  | Ok data => handle_data w available_tools message_history data
  | Raise _ => ignored message_history
  end.

(** ** The host *)

(** The host while it serves: the registry, and for each running
    [handle_client] its local [message_history]. *)
Record state : Type := {
  available_tools : list tool;
  sessions : gmap nat (list message);
}.

(** [MCPHost.__init__]. *)
Definition init (w : world) : state :=
  {| available_tools := discover_tools w; sessions := ∅ |}.

(** One websocket event: the state after it, the frames sent, each with
    the connection it is sent on, and the calls made. *)
Definition step (w : world) (st : state) (ev : event)
  : state * list (nat * frame) * list call :=
  match ev with
  | Connect c =>
      ({| available_tools := available_tools st;
          sessions := <[c := []]> (sessions st) |}, [(c, greeting)], [])
  | Disconnect c =>
      ({| available_tools := available_tools st;
          sessions := delete c (sessions st) |}, [], [])
  | Frame c raw =>
      match sessions st !! c with
      | Some message_history =>
          let t := handle_message w (available_tools st) message_history raw in
          ({| available_tools := available_tools st;
              sessions := <[c := history t]> (sessions st) |},
           pair c <$> sent t, calls t)
      | None => (st, [], [])
      end
  end.

Fixpoint run (w : world) (st : state) (evs : list event)
  : state * list (nat * frame) :=
  match evs with
  | [] => (st, [])
  | ev :: rest =>
      let '(st1, out1, _) := step w st ev in
      let '(st2, out2) := run w st1 rest in
      (st2, out1 ++ out2)
  end.

End Runtime.

End Host.

(* ================================================================== *)
(** * A runtime to run the hosts on concrete inputs *)
(* ================================================================== *)

(** The runtime functions on a fragment: JSON texts of integers, strings
    without escape sequences, [null], [true], [false], arrays and objects;
    letter case of the ASCII letters.  Outside the fragment [json_loads]
    reports a decoding error, bytes above 127 are printed as they are and
    the case of the letters they encode is left as it is. *)
Module Fragment.

Definition is_json_space (c : ascii) : bool :=
  match nat_of_ascii c with
  | 32%nat | 9%nat | 10%nat | 13%nat => true
  | _ => false
  end.

Fixpoint skip_ws (s : string) : string :=
  match s with
  | String c s' => if is_json_space c then skip_ws s' else s
  | EmptyString => EmptyString
  end.

Definition digit_of (c : ascii) : option Z :=
  let n := nat_of_ascii c in
  if ((48 <=? n)%nat && (n <=? 57)%nat) then Some (Z.of_nat (n - 48)) else None.

Definition is_digit (c : ascii) : bool :=
  match digit_of c with Some _ => true | None => false end.

(** The digits at the head of [s], after the value [acc] of those read. *)
Fixpoint read_digits (acc : Z) (s : string) : Z * string :=
  match s with
  | String c s' =>
      match digit_of c with
      | Some d => read_digits (10 * acc + d) s'
      | None => (acc, s)
      end
  | EmptyString => (acc, s)
  end.

(** An integer literal without its sign: [0] or a digit string that does
    not start with [0]; a fraction or an exponent is outside the fragment. *)
Definition read_nat (s : string) : option (Z * string) :=
  match s with
  | String c s' =>
      match digit_of c with
      | Some 0 =>
          match s' with
          | String c' _ =>
              if is_digit c' || Ascii.eqb c' "." || Ascii.eqb c' "e"
                 || Ascii.eqb c' "E"
              then None else Some (0, s')
          | EmptyString => Some (0, s')
          end
      | Some d =>
          let '(n, rest) := read_digits d s' in
          match rest with
          | String c' _ =>
              if Ascii.eqb c' "." || Ascii.eqb c' "e" || Ascii.eqb c' "E"
              then None else Some (n, rest)
          | EmptyString => Some (n, rest)
          end
      | None => None
      end
  | EmptyString => None
  end.

(** The characters up to the closing quote. *)
Fixpoint read_string (s : string) : option (string * string) :=
  match s with
  | EmptyString => None
  | String c s' =>
      if Ascii.eqb c "034" then Some (EmptyString, s')
      else if Ascii.eqb c "092" || (nat_of_ascii c <? 32)%nat then None
      else
        match read_string s' with
        | Some (body, rest) => Some (String c body, rest)
        | None => None
        end
  end.

(** [d[k] = v]. *)
Fixpoint dict_set (k : string) (v : json) (d : list (string * json))
  : list (string * json) :=
  match d with
  | [] => [(k, v)]
  | (k', v') :: d' =>
      if String.eqb k k' then (k', v) :: d' else (k', v') :: dict_set k v d'
  end.

Definition literal (word : string) (v : json) (s : string)
  : option (json * string) :=
  if String.prefix word s then Some (v, Py.drop_chars (String.length word) s)
  else None.

Fixpoint read_value (fuel : nat) (s : string) : option (json * string) :=
  match fuel with
  | O => None
  | S fuel =>
      match skip_ws s with
      | EmptyString => None
      | String c s' as s0 =>
          if Ascii.eqb c "n" then literal "null" JNull s0
          else if Ascii.eqb c "t" then literal "true" (JBool true) s0
          else if Ascii.eqb c "f" then literal "false" (JBool false) s0
          else if Ascii.eqb c "034" then
            match read_string s' with
            | Some (body, rest) => Some (JStr body, rest)
            | None => None
            end
          else if Ascii.eqb c "-" then
            match read_nat s' with
            | Some (n, rest) => Some (JNum (- n), rest)
            | None => None
            end
          else if Ascii.eqb c "[" then
            match skip_ws s' with
            | String "]" rest => Some (JList [], rest)
            | _ => read_items fuel [] s'
            end
          else if Ascii.eqb c "{" then
            match skip_ws s' with
            | String "}" rest => Some (JObj [], rest)
            | _ => read_members fuel [] s'
            end
          else
            match read_nat s0 with
            | Some (n, rest) => Some (JNum n, rest)
            | None => None
            end
      end
  end
with read_items (fuel : nat) (acc : list json) (s : string)
  : option (json * string) :=
  match fuel with
  | O => None
  | S fuel =>
      match read_value fuel s with
      | Some (v, rest) =>
          match skip_ws rest with
          | String "," rest' => read_items fuel (acc ++ [v]) rest'
          | String "]" rest' => Some (JList (acc ++ [v]), rest')
          | _ => None
          end
      | None => None
      end
  end
with read_members (fuel : nat) (acc : list (string * json)) (s : string)
  : option (json * string) :=
  match fuel with
  | O => None
  | S fuel =>
      match skip_ws s with
      | String "034" s' =>
          match read_string s' with
          | Some (k, rest) =>
              match skip_ws rest with
              | String ":" rest' =>
                  match read_value fuel rest' with
                  | Some (v, rest'') =>
                      match skip_ws rest'' with
                      | String "," r => read_members fuel (dict_set k v acc) r
                      | String "}" r => Some (JObj (dict_set k v acc), r)
                      | _ => None
                      end
                  | None => None
                  end
              | _ => None
              end
          | None => None
          end
      | _ => None
      end
  end.

(** [json.loads] on the fragment: one value, and white space around it. *)
Definition loads (s : string) : res json :=
  match read_value (S (String.length s)) s with
  | Some (v, rest) =>
      match skip_ws rest with
      | EmptyString => Ok v
      | _ => Raise JSONDecodeError
      end
  | None => Raise JSONDecodeError
  end.

Definition bs : ascii := "092"%char.

(** A backslash and a letter. *)
Definition esc (c : ascii) : string := String bs (String c EmptyString).

Definition hex_digit (n : nat) : ascii :=
  if (n <? 10)%nat then ascii_of_nat (48 + n) else ascii_of_nat (87 + n).

Definition hex2 (c : ascii) : string :=
  let n := nat_of_ascii c in
  String (hex_digit (n / 16)) (String (hex_digit (n mod 16)) EmptyString).

Fixpoint escape (f : ascii -> string) (s : string) : string :=
  match s with
  | EmptyString => EmptyString
  | String c s' => f c +:+ escape f s'
  end.

(** [repr(s)] of a string. *)
Definition repr_char (quote c : ascii) : string :=
  let n := nat_of_ascii c in
  if Ascii.eqb c quote || Ascii.eqb c bs then String bs (String c EmptyString)
  else if (n =? 10)%nat then esc "n"
  else if (n =? 13)%nat then esc "r"
  else if (n =? 9)%nat then esc "t"
  else if (n <? 32)%nat || (n =? 127)%nat then esc "x" +:+ hex2 c
  else String c EmptyString.

Definition repr_string (s : string) : string :=
  let quote :=
    if Py.contains Py.sq s && negb (Py.contains Py.dq s)
    then "034"%char else "039"%char in
  String quote (escape (repr_char quote) s) +:+ String quote EmptyString.

(** [repr(v)]. *)
Fixpoint repr (v : json) : string :=
  match v with
  | JNull => "None"
  | JBool true => "True"
  | JBool false => "False"
  | JNum z => Py.str_Z z
  | JStr s => repr_string s
  | JList l => "[" +:+ Py.join ", " (map repr l) +:+ "]"
  | JObj d =>
      "{" +:+ Py.join ", "
                (map (fun kv => match kv with
                                | (k, x) => repr_string k +:+ ": " +:+ repr x
                                end) d)
      +:+ "}"
  end.

(** [str(v)]. *)
Definition str (v : json) : string :=
  match v with JStr s => s | _ => repr v end.

(** A string as [json.dumps] writes it. *)
Definition dumps_char (c : ascii) : string :=
  let n := nat_of_ascii c in
  if Ascii.eqb c "034" || Ascii.eqb c bs then String bs (String c EmptyString)
  else if (n =? 10)%nat then esc "n"
  else if (n =? 13)%nat then esc "r"
  else if (n =? 9)%nat then esc "t"
  else if (n =? 8)%nat then esc "b"
  else if (n =? 12)%nat then esc "f"
  else if (n <? 32)%nat then esc "u" +:+ "00" +:+ hex2 c
  else String c EmptyString.

Definition dumps_string (s : string) : string :=
  Py.dq +:+ escape dumps_char s +:+ Py.dq.

Fixpoint spaces (n : nat) : string :=
  match n with O => EmptyString | S n' => String " " (spaces n') end.

(** [json.dumps(v, indent=2)], at nesting depth [level]. *)
Fixpoint dumps_at (level : nat) (v : json) : string :=
  let inner := Py.nl +:+ spaces (2 * S level) in
  let close := Py.nl +:+ spaces (2 * level) in
  match v with
  | JNull => "null"
  | JBool true => "true"
  | JBool false => "false"
  | JNum z => Py.str_Z z
  | JStr s => dumps_string s
  | JList [] => "[]"
  | JList l =>
      "[" +:+ inner
      +:+ Py.join ("," +:+ inner) (map (dumps_at (S level)) l)
      +:+ close +:+ "]"
  | JObj [] => "{}"
  | JObj d =>
      "{" +:+ inner
      +:+ Py.join ("," +:+ inner)
            (map (fun kv => match kv with
                            | (k, x) =>
                                dumps_string k +:+ ": " +:+ dumps_at (S level) x
                            end) d)
      +:+ close +:+ "}"
  end.

(** [lower] and [upper] on the ASCII letters. *)
#[export] Instance casing : Py.Casing := {|
  Py.lower := Py.map_chars Py.lower_char;
  Py.upper := Py.map_chars Py.upper_char;
  Py.lower_ascii := fun s _ => eq_refl;
  Py.upper_ascii := fun s _ => eq_refl;
|}.

#[export] Instance runtime : PyRuntime := {|
  py_casing := casing;
  json_loads := loads;
  json_dumps := dumps_at 0;
  py_str := str;
|}.

End Fragment.

(* ================================================================== *)
(** * Notions of the specification *)
(* ================================================================== *)

(** A string of white space only: each of its code points is one of the
    white space characters. *)
Definition blank (s : string) : bool :=
  forallb Py.is_space (Py.code_points s).

(** [p] occurs in [s]. *)
Definition occurs (p s : string) : Prop := exists a b, s = a +:+ p +:+ b.

(** What one server adds to the registry of [src/mcp-host.py]. *)
Definition root_server_tools (w : Root.world) (s : server) : list tool :=
  Root.discover_server w [] s.

(** The first element of [l] that satisfies [p], with what precedes it. *)
Definition first_match {A : Type} (p : A -> bool) (l : list A) (x : A) : Prop :=
  exists pre post,
    l = pre ++ x :: post /\ p x = true /\ Forall (fun y => p y = false) pre.

(** The trigger phrases of the products tool in [src/mcp-host.py]. *)
Definition phrases : list string :=
  ["get products"; "fetch products"; "show products"].

(** Two outcomes of the loop over a stream that agree on the payload
    kept, or on the exception raised. *)
Definition same_outcome (r1 r2 : res Root.sse_state) : Prop :=
  match r1, r2 with
  | Ok a, Ok b => Root.products_data a = Root.products_data b
  | Raise e1, Raise e2 => e1 = e2
  | _, _ => False
  end.

(** The entry of the product [d] at rank [i] in a reply:
    [i. name], then [ by brand] when the product has a brand, then an
    empty line. *)
Definition entry_text {rt : PyRuntime} (i : nat) (d : list (string * json))
  : string :=
  Py.str_nat i +:+ ". "
  +:+ py_str (default (JStr "Unknown") (dict_get "product_name" d))
  +:+ match dict_get "brand_name" d with
      | Some brand => " by " +:+ py_str brand
      | None => EmptyString
      end
  +:+ Py.nl +:+ Py.nl.

(** The entries of the products [ds], ranked from [i]. *)
Fixpoint listing {rt : PyRuntime} (i : nat) (ds : list (list (string * json)))
  : string :=
  match ds with
  | [] => EmptyString
  | d :: rest => entry_text i d +:+ listing (S i) rest
  end.

(** The connection an event belongs to. *)
Definition conn_of (ev : event) : nat :=
  match ev with Connect c | Frame c _ | Disconnect c => c end.

(** The events of connection [c], and the frames sent on it. *)
Definition events_of (c : nat) (evs : list event) : list event :=
  filter (fun ev => conn_of ev = c) evs.

Definition frames_to {F : Type} (c : nat) (out : list (nat * F)) : list F :=
  snd <$> filter (fun o => fst o = c) out.

(* ================================================================== *)
(** * Concrete worlds *)
(* ================================================================== *)

Definition product_server : server :=
  {| srv_url := "http://localhost:5001";
     srv_name := Some "product-server";
     srv_path := Some "/products" |}.

Definition refused : discovery_reply :=
  DiscoveryRaises (OtherException "connection refused").

(** A world of [src/host/mcp-host.py] whose backend answers [answer] to
    every prompt and whose tool endpoints fail with [failure]. *)
Definition host_world (servers : list server) (answer : string)
  (failure : httpx_exn) : Host.world :=
  {| Host.tool_servers := servers;
     Host.requests_get := fun _ => refused;
     Host.query_gemini := fun _ => answer;
     Host.http_get := fun _ => Host.GetRaises (Some failure) "failed" |}.

Definition get_products_tool : tool :=
  {| name := "get_products";
     description := "Get the list of available products from the product API.";
     parameters := JObj [];
     url := None |}.

(** A world of [src/mcp-host.py]: the product server answers the run of
    its tool with the stream [lines]; the chat backend answers with the
    number of messages it was sent. *)
Definition root_world (lines : list string) : Root.world :=
  {| Root.tool_servers := [product_server];
     Root.use_gemini := false;
     Root.requests_get :=
       fun _ => DiscoveryStatus 200 (Ok [get_products_tool]);
     Root.run_stream := fun _ => Root.RunStream 200 lines None;
     Root.query_gemini := fun _ _ => "gemini";
     Root.ollama_chat :=
       fun messages _ =>
         Root.OllamaStatus 200
           (Ok (JStr ("answer to " +:+ Py.str_nat (length messages)
                      +:+ " messages"))) |}.

(** A data line of an event stream. *)
Definition data_line (body : string) : string := "data: " +:+ body.

Definition result_1 : string :=
  data_line ("{" +:+ Py.dq +:+ "result" +:+ Py.dq +:+ ": 1}").

Definition result_2 : string :=
  data_line ("{" +:+ Py.dq +:+ "result" +:+ Py.dq +:+ ": 2}").

Definition widget : list (string * json) :=
  [("product_name", JStr "Widget"); ("brand_name", JStr "Acme")].

Definition product_mirror : server :=
  {| srv_url := "http://localhost:5002";
     srv_name := Some "Product-Mirror";
     srv_path := Some "/products" |}.

(** The data line of a stream that holds a list of one product. *)
Definition widget_line : string :=
  data_line
    ("{" +:+ Py.dq +:+ "result" +:+ Py.dq +:+ ": [{"
     +:+ Py.dq +:+ "product_name" +:+ Py.dq +:+ ": "
     +:+ Py.dq +:+ "Widget" +:+ Py.dq +:+ ", "
     +:+ Py.dq +:+ "brand_name" +:+ Py.dq +:+ ": "
     +:+ Py.dq +:+ "Acme" +:+ Py.dq +:+ "}]}").

(** A world of [src/host/mcp-host.py] whose backend answers [answer] to
    every prompt and whose tool endpoints answer [reply]. *)
Definition host_world_with (servers : list server) (answer : string)
  (reply : Host.get_reply) : Host.world :=
  {| Host.tool_servers := servers;
     Host.requests_get := fun _ => refused;
     Host.query_gemini := fun _ => answer;
     Host.http_get := fun _ => reply |}.

(** A server whose name holds no keyword. *)
Definition plain_server : server :=
  {| srv_url := "http://localhost:5009";
     srv_name := Some "inventory";
     srv_path := None |}.

(** A space, a no-break space (U+00A0) and an em space (U+2003). *)
Definition wide_blank : string :=
  " " +:+ Py.bytes [194; 160]%nat +:+ Py.bytes [226; 128; 131]%nat.

(** A frame [{"type": "user_message", "content": c}], as its sender
    writes it. *)
Definition user_frame (c : string) : string :=
  "{" +:+ Py.dq +:+ "type" +:+ Py.dq +:+ ": "
  +:+ Py.dq +:+ "user_message" +:+ Py.dq +:+ ", "
  +:+ Py.dq +:+ "content" +:+ Py.dq +:+ ": " +:+ Py.dq +:+ c +:+ Py.dq +:+ "}".

(* ================================================================== *)
(** * [query_gemini] *)
(* ================================================================== *)

(** [query_gemini] is the same function in the two hosts.  It posts the
    message and the history to the Gemini endpoint and returns a string
    whatever happens. *)
Module Gemini.

(** An entry of [payload["contents"]]:
    [{"role": ..., "parts": [{"text": ...}]}]. *)
Record content : Type := {
  role : string;
  text : json;
}.

(** What the answer of status 200 holds: the text at
    [result["candidates"][0]["content"]["parts"][0]["text"]], or an
    exception on the way to it, with its [str(e)]. *)
Inductive body : Type :=
| Text (response_text : string)
| Bad (msg : string).

(** The outcome of [requests.post(url, headers=headers, json=payload)]. *)
Inductive reply : Type :=
| Raises (msg : string)
| Status (status_code : Z) (b : body).

(** [role = "user" if msg["role"] == "user" else "model"]. *)
Definition model_role (r : string) : string :=
  if String.eqb r "user" then "user" else "model".

Definition turn_content (msg : Root.message) : content :=
  {| role := model_role (Root.role msg); text := Root.content msg |}.

(** [payload["contents"]] for [message], [earlier] being
    [self.messages_history[:-1]]. *)
Definition contents (message : string) (earlier : list Root.message)
  : list content :=
  {| role := "user"; text := JStr message |} :: (turn_content <$> earlier).

Definition status_error (status_code : Z) : string :=
  "Error: Unable to get response from Gemini (Status "
  +:+ Py.str_Z status_code +:+ ")".

(** The function once the history is sliced. *)
Definition answer (post : list content -> reply) (message : string)
  (earlier : list Root.message) : string :=
  match post (contents message earlier) with
  | Raises msg => "Error: " +:+ msg
  | Status status_code b =>
      if status_code =? 200 then
        match b with
        | Text response_text => response_text
        | Bad msg => "Error: " +:+ msg
        end
      else status_error status_code
  end.

Definition query_gemini (post : list content -> reply)
  (messages_history : list Root.message) (message : string) : string :=
  answer post message (removelast messages_history).

End Gemini.

(* ================================================================== *)
(** * [src/product-server/server_product.py]: the [/products] endpoint *)
(* ================================================================== *)

Module ProductServer.

(** The outcome of [client.get(PRODUCTS_API_URL)], [raise_for_status()]
    and [response.json()]: an exception, or the decoded body. *)
Inductive api_reply : Type :=
| ApiRaises (e : exn)
| ApiJson (data : json).

(** The body of the answer of status 200. *)
Record answer : Type := {
  raw_data : json;
  formatted_content : string;
  count : nat;
}.

Definition tab : string := String "009"%char EmptyString.

Definition header : string :=
  "Here are some products you might be interested in:" +:+ Py.nl +:+ Py.nl.

(** The value of [products]. *)
Definition products_of (data : json) : json :=
  match data with
  | JObj d =>
      match dict_get "products" d with
      | Some products => products
      | None => JList []
      end
  | JList _ => data
  | _ => JList []
  end.

(** The characters of a string. *)
Definition chars (s : string) : list json := JStr <$> Py.code_points s.

(** [products[:n]]. *)
Definition slice (n : nat) (products : json) : res json :=
  match products with
  | JList l => Ok (JList (take n l))
  | JStr s => Ok (JStr (Py.implode (take n (Py.code_points s))))
  | _ => Raise TypeError
  end.

(** What [for product in v] yields, for a list or a string [v]. *)
Definition items (v : json) : list json :=
  match v with
  | JList l => l
  | JStr s => chars s
  | _ => []
  end.

(** [len(products)], for a value that could be sliced. *)
Definition len (products : json) : nat :=
  match products with
  | JList l => length l
  | JStr s => Py.len s
  | _ => O
  end.

Section Runtime.
Context {rt : PyRuntime}.

(** One turn of [for product in products[:5]]: what it adds. *)
Definition product_line (product : json) : res string :=
  match product with
  | JObj d =>
      match dict_get "product_name" d with
      | None => Raise (KeyError "product_name")
      | Some product_name =>
          match dict_get "brand_name" d with
          | None => Raise (KeyError "brand_name")
          | Some brand_name =>
              Ok (py_str product_name +:+ tab
                  +:+ "$" +:+ py_str brand_name +:+ Py.nl)
          end
      end
  | _ => Raise TypeError
  end.

Fixpoint format_lines (products : list json) (formatted_content : string)
  : res string :=
  match products with
  | [] => Ok formatted_content
  | product :: rest =>
      match product_line product with
      | Ok line => format_lines rest (formatted_content +:+ line)
      | Raise e => Raise e
      end
  end.

(** The body of [get_products]: the answer, or the exception that makes
    it an answer of status 500. *)
Definition get_products (api : api_reply) : res answer :=
  match api with
  | ApiRaises e => Raise e
  | ApiJson data =>
      let products := products_of data in
      first5 ← slice 5 products;
      formatted ← format_lines (items first5) header;
      first10 ← slice 10 products;
      Ok {| raw_data := first10;
            formatted_content := formatted;
            count := len products |}
  end.


End Runtime.

End ProductServer.

(* ================================================================== *)
(** * The clients *)
(* ================================================================== *)

(** [src/mcp-client.py] and the sending side of
    [src/client/mcp_gui_client.py].  A frame is given by the value that
    [json.dumps] writes and the peer decodes. *)
Module Client.

(** The frame of [send_message(content)]. *)
Definition send_message (content : string) : json :=
  JObj [("type", JStr "user_message"); ("content", JStr content)].

(** The frame of [clear_history()]. *)
Definition clear_history : json :=
  JObj [("type", JStr "clear_history")].

(** What a line typed at the console does. *)
Inductive action : Type :=
| Exit
| Send (data : json).

(** The body of the loop of [user_input_handler]. *)
Definition user_input_handler {rt : PyRuntime} (user_input : string) : action :=
  if String.eqb (Py.lower user_input) "exit" then Exit
  else if String.eqb (Py.lower user_input) "clear" then Send clear_history
  else Send (send_message user_input).

(** [on_send_clicked] of the graphical client, once connected: the frame
    sent, if any. *)
Definition on_send_clicked (input_text : string) : option json :=
  let message := Py.strip input_text in
  if Py.nonempty message then Some (send_message message) else None.

(** [len(v)] is defined. *)
Definition has_len (v : json) : bool :=
  match v with
  | JStr _ | JList _ | JObj _ => true
  | _ => false
  end.

(** What the body of the loop of [receive_messages] did with a frame. *)
Inductive received : Type :=
| Printed (response : json)
| Noted
| Unhandled
| Logged_error (e : exn).

(** The body of the loop of [receive_messages] on a decoded frame: the
    [message_history] of the client afterwards and what was done. *)
Definition receive_messages (message_history : json) (data : json)
  : json * received :=
  match py_index "type" data with
  | Raise e => (message_history, Logged_error e)
  | Ok type =>
      if is_str "llm_response" type then
        match py_index "user_message" data with
        | Raise e => (message_history, Logged_error e)
        | Ok _ =>
            match py_index "response" data with
            | Raise e => (message_history, Logged_error e)
            | Ok response => (message_history, Printed response)
            end
        end
      else if is_str "history" type then
        match py_index "data" data with
        | Raise e => (message_history, Logged_error e)
        | Ok history =>
            (history,
             if has_len history then Noted else Logged_error TypeError)
        end
      else if is_str "history_cleared" type then (JList [], Noted)
      else (message_history, Unhandled)
  end.

End Client.

(** The frames of the hosts as the values given to [json.dumps]. *)
Definition host_frame_json (f : Host.frame) : json :=
  match f with
  | Host.System_message content =>
      JObj [("type", JStr "system_message"); ("content", JStr content)]
  | Host.Llm_response user_message response =>
      JObj [("type", JStr "llm_response");
            ("user_message", JStr user_message);
            ("response", JStr response)]
  | Host.History_cleared => JObj [("type", JStr "history_cleared")]
  end.

(** [exn_str] is [str(e)]. *)
Definition root_error_text (exn_str : exn -> string) (e : Root.error_text)
  : string :=
  match e with
  | Root.Unknown_message_format => "Unknown message format"
  | Root.Error_processing_message e =>
      "Error processing message: " +:+ exn_str e
  | Root.Ollama_request_failed status_code =>
      "Ollama request failed with status " +:+ Py.str_Z status_code
  end.

Definition root_frame_json (exn_str : exn -> string) (f : Root.frame) : json :=
  match f with
  | Root.Llm_response user_message response =>
      JObj [("type", JStr "llm_response");
            ("user_message", user_message);
            ("response", response)]
  | Root.Error_frame e => JObj [("error", JStr (root_error_text exn_str e))]
  end.

(* ================================================================== *)
(** * Further notions *)
(* ================================================================== *)

(** The line that ends an event stream. *)
Definition is_close_line (line : string) : bool :=
  negb (Py.startswith "data: " line) && Py.startswith "event: close" line.

(** A line that is neither a data line nor the closing line. *)
Definition is_other_line (line : string) : bool :=
  negb (Py.startswith "data: " line)
  && negb (Py.startswith "event: close" line).

(** [None], a boolean or a number. *)
Definition is_scalar (v : json) : bool :=
  match v with
  | JNull | JBool _ | JNum _ => true
  | _ => false
  end.

Definition is_object (v : json) : bool :=
  match v with JObj _ => true | _ => false end.

(** The payload a line of an event stream carries: the value of the key
    [result] of the object a data line holds. *)
Definition line_result {rt : PyRuntime} (line : string) : option json :=
  if Py.startswith "data: " line then
    match json_loads (Py.drop_chars 6 line) with
    | Ok (JObj d) => dict_get "result" d
    | _ => None
    end
  else None.

(** The lines of a stream before its closing line. *)
Fixpoint until_close (lines : list string) : list string :=
  match lines with
  | [] => []
  | line :: rest => if is_close_line line then [] else line :: until_close rest
  end.

(** The payloads a stream carries before it closes, oldest first. *)
Definition results_of {rt : PyRuntime} (lines : list string) : list json :=
  omap line_result (until_close lines).

(** A line of a stream that is not its closing line and that is, when it
    is a data line, a text that is not JSON or the text of an object. *)
Definition readable {rt : PyRuntime} (line : string) : Prop :=
  is_other_line line = true
  \/ (Py.startswith "data: " line = true
      /\ (json_loads (Py.drop_chars 6 line) = Raise JSONDecodeError
          \/ exists d, json_loads (Py.drop_chars 6 line) = Ok (JObj d))).

(** The value of the key [type] of the object [d] is [t]. *)
Definition has_type (t : string) (d : list (string * json)) : bool :=
  match dict_get "type" d with
  | Some v => is_str t v
  | None => false
  end.

(** Continuation bytes only. *)
Fixpoint all_continuation (r : string) : bool :=
  match r with
  | EmptyString => true
  | String d r' => Py.is_continuation d && all_continuation r'
  end.

(** A byte followed by continuation bytes. *)
Definition continued (g : string) : bool :=
  match g with
  | String _ r => all_continuation r
  | EmptyString => false
  end.

(** A list of code points as [Py.code_points] makes it: each string is a
    byte followed by continuation bytes, and each but the first starts
    with a byte that is not a continuation byte. *)
Definition shaped (l : list string) : Prop :=
  Forall (fun g => continued g = true) l
  /\ Forall (fun g => Py.starts_continued g = false) (tail l).

(** A byte of the encoding of a white space character. *)
Definition space_byte (c : ascii) : bool :=
  existsb (Py.contains (String c EmptyString)) Py.whitespace.

Fixpoint all_bytes (P : ascii -> bool) (s : string) : bool :=
  match s with
  | EmptyString => true
  | String c s' => P c && all_bytes P s'
  end.

Fixpoint last_byte (s : string) : option ascii :=
  match s with
  | EmptyString => None
  | String c EmptyString => Some c
  | String _ s' => last_byte s'
  end.

(** A string that starts and ends with bytes that are not white space. *)
Definition edged (p : string) : bool :=
  match p, last_byte p with
  | String c _, Some d => negb (space_byte c) && negb (space_byte d)
  | _, _ => false
  end.

(** The history made of the turns [(content, reply)], oldest first. *)
Definition history_of_turns (turns : list (string * string))
  : list Host.message :=
  concat ((fun turn => [Host.user turn.1; Host.assistant turn.2]) <$> turns).

(** A content as [handle_client] of [src/host/mcp-host.py] keeps it:
    stripped and not empty. *)
Definition kept_content (c : string) : Prop :=
  Py.strip c = c /\ c <> EmptyString.

(** The histories that are made of whole turns with kept contents. *)
Definition whole_turns (h : list Host.message) : Prop :=
  exists turns,
    h = history_of_turns turns
    /\ Forall (fun turn => kept_content turn.1) turns.

(** The world [w] with the servers [servers] in its configuration. *)
Definition root_with_servers (w : Root.world) (servers : list server)
  : Root.world :=
  {| Root.tool_servers := servers;
     Root.use_gemini := Root.use_gemini w;
     Root.requests_get := Root.requests_get w;
     Root.run_stream := Root.run_stream w;
     Root.query_gemini := Root.query_gemini w;
     Root.ollama_chat := Root.ollama_chat w |}.

Definition host_with_servers (w : Host.world) (servers : list server)
  : Host.world :=
  {| Host.tool_servers := servers;
     Host.requests_get := Host.requests_get w;
     Host.query_gemini := Host.query_gemini w;
     Host.http_get := Host.http_get w |}.

(** A discovery call that gives no descriptor: it raises, answers with
    another status than 200, or its body does not decode. *)
Definition discovery_fails (r : discovery_reply) : bool :=
  match r with
  | DiscoveryRaises _ => true
  | DiscoveryStatus status_code body =>
      negb (status_code =? 200)
      || match body with Raise _ => true | Ok _ => false end
  end.

(** The name of a server holds one of the three keywords of
    [src/host/mcp-host.py]. *)
Definition is_static_server {rt : PyRuntime} (s : server) : bool :=
  let server_name := Py.lower (default "unknown" (srv_name s)) in
  Py.contains "eagle" server_name
  || Py.contains "product" server_name
  || Py.contains "analytics" server_name.

(** A tool request that does not give a content: it raises, answers with
    another status than 200, or its body does not decode. *)
Definition request_fails (r : Host.get_reply) : bool :=
  match r with
  | Host.GetRaises _ _ => true
  | Host.GetStatus status_code body =>
      negb (status_code =? 200)
      || match body with Host.Undecodable _ => true | _ => false end
  end.

(** A product with a name and a brand. *)
Definition has_name_and_brand (product : json) : bool :=
  match product with
  | JObj d =>
      match dict_get "product_name" d, dict_get "brand_name" d with
      | Some _, Some _ => true
      | _, _ => false
      end
  | _ => false
  end.

(** The line of a product in the content of the [/products] endpoint:
    its name, a tab, a dollar sign, its brand. *)
Definition line_of {rt : PyRuntime} (product : json) : string :=
  match product with
  | JObj d =>
      py_str (default JNull (dict_get "product_name" d))
      +:+ ProductServer.tab +:+ "$"
      +:+ py_str (default JNull (dict_get "brand_name" d)) +:+ Py.nl
  | _ => EmptyString
  end.

(** A world of [src/mcp-host.py] in which nothing answers. *)
Definition dead_root_world : Root.world :=
  {| Root.tool_servers := [];
     Root.use_gemini := false;
     Root.requests_get := fun _ => refused;
     Root.run_stream := fun _ => Root.RunRaises (Httpx ConnectError "refused");
     Root.query_gemini := fun _ _ => "Error: refused";
     Root.ollama_chat :=
       fun _ _ => Root.OllamaRaises (OtherException "refused") |}.


(** A Gemini endpoint that answers with the number of contents it was
    sent. *)
Definition gemini_counts (cs : list Gemini.content) : Gemini.reply :=
  Gemini.Status 200 (Gemini.Text (Py.str_nat (length cs))).

(** The world of [src/mcp-host.py] that uses the Gemini endpoint [post];
    the stream of a tool run closes without a result. *)
Definition root_gemini_world (post : list Gemini.content -> Gemini.reply)
  : Root.world :=
  {| Root.tool_servers := [product_server];
     Root.use_gemini := true;
     Root.requests_get :=
       fun _ => DiscoveryStatus 200 (Ok [get_products_tool]);
     Root.run_stream := fun _ => Root.RunStream 200 ["event: close"] None;
     Root.query_gemini := Gemini.answer post;
     Root.ollama_chat :=
       fun _ _ => Root.OllamaRaises (OtherException "refused") |}.


(** The runtime of the concrete inputs. *)
#[global] Existing Instance Fragment.runtime.

(* ================================================================== *)
(** * Lemmas on strings and lists *)
(* ================================================================== *)

Lemma append_cons (c : ascii) (a b : string) :
  String c a +:+ b = String c (a +:+ b).
Proof. reflexivity. Qed.

Lemma append_nil_l (s : string) : EmptyString +:+ s = s.
Proof. reflexivity. Qed.

Lemma append_nil_r (s : string) : s +:+ EmptyString = s.
Proof.
  induction s as [|c s IH]; [reflexivity|].
  now rewrite append_cons, IH.
Qed.

Lemma append_assoc (a b c : string) : (a +:+ b) +:+ c = a +:+ (b +:+ c).
Proof.
  induction a as [|x a IH]; [reflexivity|].
  now rewrite !append_cons, IH.
Qed.

(** [String.prefix] and [Py.contains] are the prefix and the substring
    relations. *)
Lemma prefix_spec (p s : string) :
  String.prefix p s = true <-> exists b, s = p +:+ b.
Proof.
  revert s. induction p as [|c p IH]; intros s.
  - split; [intros _; now exists s | now destruct s].
  - destruct s as [|c' s]; simpl.
    + split; [discriminate | intros [b Hb]; discriminate].
    + destruct (Ascii.ascii_dec c c') as [->|Hc].
      * rewrite IH. split; intros [b Hb]; exists b.
        -- now rewrite append_cons, <- Hb.
        -- rewrite append_cons in Hb. congruence.
      * split; [discriminate|]. intros [b Hb].
        rewrite append_cons in Hb. congruence.
Qed.

Lemma contains_spec (p s : string) :
  Py.contains p s = true <-> exists a b, s = a +:+ p +:+ b.
Proof.
  induction s as [|c s IH].
  - cbn [Py.contains]. rewrite prefix_spec. split.
    + intros [b Hb]. now exists EmptyString, b.
    + intros ([|x a] & b & H); [now exists b | discriminate].
  - cbn [Py.contains]. rewrite orb_true_iff, prefix_spec, IH. split.
    + intros [[b Hb] | (a & b & Hab)].
      * now exists EmptyString, b.
      * exists (String c a), b. now rewrite append_cons, <- Hab.
    + intros ([|x a] & b & H).
      * left. now exists b.
      * right. rewrite append_cons in H. exists a, b. congruence.
Qed.

Lemma implode_app (l1 l2 : list string) :
  Py.implode (l1 ++ l2) = Py.implode l1 +:+ Py.implode l2.
Proof.
  induction l1 as [|g l1 IH]; [reflexivity|].
  cbn [app Py.implode]. now rewrite IH, append_assoc.
Qed.

Lemma code_points_head (c : ascii) (s : string) :
  exists g gs, Py.code_points (String c s) = String c g :: gs.
Proof.
  cbn [Py.code_points]. destruct (Py.starts_continued s).
  - destruct (Py.code_points s) as [|g gs]; cbn [Py.attach]; eauto.
  - eauto.
Qed.

Lemma implode_code_points (s : string) : Py.implode (Py.code_points s) = s.
Proof.
  induction s as [|c s IH]; [reflexivity|]. cbn [Py.code_points].
  destruct (Py.starts_continued s) eqn:Hs.
  - destruct s as [|d s]; [discriminate|].
    destruct (code_points_head d s) as (g & gs & Hg). rewrite Hg in *.
    cbn [Py.attach Py.implode] in *. now rewrite append_cons, IH.
  - cbn [Py.implode]. now rewrite IH.
Qed.

Lemma code_points_shaped (s : string) : shaped (Py.code_points s).
Proof.
  induction s as [|c s [IH1 IH2]]; [split; constructor|].
  cbn [Py.code_points]. destruct (Py.starts_continued s) eqn:Hs.
  - destruct s as [|d s]; [discriminate|].
    destruct (code_points_head d s) as (g & gs & Hg). rewrite Hg in *.
    cbn [Py.attach tail] in *. split; [|exact IH2].
    inversion IH1 as [|? ? Hg1 Hgs]; subst. constructor; [|exact Hgs].
    cbn [continued all_continuation] in *. cbn in Hs. now rewrite Hs.
  - split; [constructor; [reflexivity | exact IH1]|]. cbn [tail].
    destruct s as [|d s]; [constructor|].
    destruct (code_points_head d s) as (g & gs & Hg). rewrite Hg in *.
    constructor; [exact Hs | exact IH2].
Qed.

Lemma code_points_group (r rest : string) (gs : list string) :
  all_continuation r = true ->
  Py.starts_continued rest = false ->
  Py.code_points rest = gs ->
  forall c, Py.code_points (String c r +:+ rest) = String c r :: gs.
Proof.
  intros Hr Hrest Hgs. induction r as [|d r IH]; intros c.
  - rewrite append_cons, append_nil_l. cbn [Py.code_points].
    now rewrite Hrest, Hgs.
  - cbn [all_continuation] in Hr. apply andb_true_iff in Hr as [Hd Hr].
    rewrite append_cons. cbn [Py.code_points].
    change (String d r +:+ rest) with (String d (r +:+ rest)) at 1.
    cbn [Py.starts_continued]. rewrite Hd.
    rewrite (IH Hr d). reflexivity.
Qed.

Lemma code_points_implode (l : list string) :
  shaped l -> Py.code_points (Py.implode l) = l.
Proof.
  induction l as [|g l IH]; [reflexivity|]. intros [H1 H2].
  inversion H1 as [|? ? Hg Hl]; subst. cbn [tail] in H2.
  destruct g as [|c r]; [discriminate|]. cbn [Py.implode].
  apply code_points_group; [exact Hg| |].
  - destruct H2 as [|g' l' Hg' _]; [reflexivity|].
    destruct g' as [|d r']; [inversion Hl; discriminate|]. exact Hg'.
  - apply IH. split; [exact Hl|]. destruct H2; [constructor | assumption].
Qed.

Lemma shaped_app (l1 l2 : list string) :
  shaped (l1 ++ l2) -> shaped l1 /\ shaped l2.
Proof.
  intros [H1 H2]. apply Forall_app in H1 as [Ha Hb].
  split; (split; [assumption|]).
  - destruct l1 as [|g l1]; [constructor|]. cbn [app tail] in *.
    now apply Forall_app in H2 as [? _].
  - destruct l1 as [|g l1]; [exact H2|]. cbn [app tail] in H2.
    apply Forall_app in H2 as [_ H2]. destruct l2; [constructor|].
    now inversion H2.
Qed.

(** What [Py.drop_spaces] removes is white space at the head. *)
Lemma drop_spaces_suffix (l : list string) :
  exists pre, l = pre ++ Py.drop_spaces l /\ forallb Py.is_space pre = true.
Proof.
  induction l as [|g l (pre & Hpre & Hsp)]; [now exists []|].
  cbn [Py.drop_spaces]. destruct (Py.is_space g) eqn:Hg.
  - exists (g :: pre). cbn [app forallb]. rewrite Hg, Hsp. now rewrite <- Hpre.
  - now exists [].
Qed.

Lemma drop_spaces_all (l : list string) :
  forallb Py.is_space l = true <-> Py.drop_spaces l = [].
Proof.
  induction l as [|g l IH]; [easy|]. cbn [forallb Py.drop_spaces].
  destruct (Py.is_space g); [exact IH | easy].
Qed.

Lemma drop_spaces_tight (l : list string) :
  Py.drop_spaces (Py.drop_spaces l) = Py.drop_spaces l.
Proof.
  induction l as [|g l IH]; [reflexivity|]. cbn [Py.drop_spaces].
  destruct (Py.is_space g) eqn:Hg; [exact IH|].
  cbn [Py.drop_spaces]. now rewrite Hg.
Qed.

(** [Py.trim l] is [l] without white space before and after. *)
Lemma trim_infix (l : list string) :
  exists pre suf,
    l = pre ++ Py.trim l ++ suf
    /\ forallb Py.is_space pre = true /\ forallb Py.is_space suf = true.
Proof.
  unfold Py.trim.
  destruct (drop_spaces_suffix l) as (pre & Hpre & Hsp).
  destruct (drop_spaces_suffix (rev (Py.drop_spaces l))) as (suf & Hsuf & Hss).
  exists pre, (rev suf). split; [|split; [exact Hsp|]].
  - rewrite <- rev_app_distr, <- Hsuf, rev_involutive. exact Hpre.
  - rewrite forallb_forall in *. intros x Hx. apply Hss. now apply in_rev.
Qed.

Lemma trim_tight (l : list string) : Py.drop_spaces (Py.trim l) = Py.trim l.
Proof.
  unfold Py.trim.
  destruct (drop_spaces_suffix (rev (Py.drop_spaces l))) as (suf & Hsuf & _).
  set (m := Py.drop_spaces l) in *. set (r := Py.drop_spaces (rev m)) in *.
  assert (Hm : m = rev r ++ rev suf)
    by (rewrite <- rev_app_distr, <- Hsuf; now rewrite rev_involutive).
  assert (Htight : Py.drop_spaces m = m) by apply drop_spaces_tight.
  destruct (rev r) as [|g t] eqn:Hr; [reflexivity|].
  rewrite Hm in Htight. cbn [app Py.drop_spaces] in *.
  destruct (Py.is_space g); [|reflexivity].
  exfalso. destruct (drop_spaces_suffix (t ++ rev suf)) as (p & Hp & _).
  rewrite Htight in Hp. apply (f_equal (@length string)) in Hp.
  rewrite !length_app in Hp. cbn [length] in Hp. rewrite ?length_app in Hp. lia.
Qed.

Lemma trim_idem (l : list string) : Py.trim (Py.trim l) = Py.trim l.
Proof.
  unfold Py.trim at 1. rewrite trim_tight. unfold Py.trim.
  now rewrite rev_involutive, drop_spaces_tight.
Qed.

Lemma trim_all (l : list string) :
  forallb Py.is_space l = true <-> Py.trim l = [].
Proof.
  unfold Py.trim. split.
  - intros H. apply drop_spaces_all in H. now rewrite H.
  - intros H. apply (f_equal (@rev string)) in H.
    rewrite rev_involutive in H. cbn in H. apply drop_spaces_all in H.
    apply drop_spaces_all.
    destruct (Py.drop_spaces l) as [|g t] eqn:Hd; [reflexivity|].
    exfalso. assert (Hg : Py.is_space g = true).
    { rewrite forallb_forall in H. apply H, in_rev. rewrite rev_involutive.
      now left. }
    pose proof (drop_spaces_tight l) as Ht. rewrite Hd in Ht.
    cbn [Py.drop_spaces] in Ht. rewrite Hg in Ht.
    destruct (drop_spaces_suffix t) as (p & Hp & _).
    rewrite Ht in Hp. apply (f_equal (@length string)) in Hp.
    rewrite !length_app in Hp. cbn [length] in Hp. lia.
Qed.

Lemma trim_shaped (l : list string) : shaped l -> shaped (Py.trim l).
Proof.
  intros H. destruct (trim_infix l) as (pre & suf & Hl & _).
  rewrite Hl in H. apply shaped_app in H as [_ H].
  now apply shaped_app in H as [H _].
Qed.

(** [s.strip()] lies in [s], between white space. *)
Lemma strip_infix (s : string) :
  exists a b, s = a +:+ Py.strip s +:+ b /\ blank a = true /\ blank b = true.
Proof.
  destruct (trim_infix (Py.code_points s)) as (pre & suf & Hs & Hpre & Hsuf).
  exists (Py.implode pre), (Py.implode suf). split.
  - rewrite <- (implode_code_points s) at 1. rewrite Hs at 1.
    now rewrite !implode_app.
  - pose proof (code_points_shaped s) as Hshape. rewrite Hs in Hshape.
    apply shaped_app in Hshape as [H1 H2]. apply shaped_app in H2 as [_ H2].
    unfold blank. now rewrite !code_points_implode.
Qed.

(** [strip] is idempotent. *)
Lemma strip_idem (s : string) : Py.strip (Py.strip s) = Py.strip s.
Proof.
  unfold Py.strip.
  rewrite code_points_implode by apply trim_shaped, code_points_shaped.
  now rewrite trim_idem.
Qed.

Lemma implode_empty (l : list string) :
  shaped l -> Py.implode l = EmptyString -> l = [].
Proof.
  destruct l as [|g l]; [reflexivity|]. intros [H _] Hi.
  inversion H as [|? ? Hg _]; subst. destruct g; discriminate.
Qed.

(** The strings [strip] empties are the strings of white space. *)
Lemma strip_empty (s : string) : Py.strip s = EmptyString <-> blank s = true.
Proof.
  unfold Py.strip, blank. rewrite trim_all. split.
  - apply implode_empty, trim_shaped, code_points_shaped.
  - now intros ->.
Qed.

Lemma strip_blank (s : string) : blank s = true -> Py.strip s = EmptyString.
Proof. apply strip_empty. Qed.

(** What occurs in [s.strip()] occurs in [s]. *)
Lemma contains_strip (p s : string) :
  Py.contains p (Py.strip s) = true -> Py.contains p s = true.
Proof.
  rewrite !contains_spec. intros (a & b & H).
  destruct (strip_infix s) as (a' & b' & Hs & _).
  exists (a' +:+ a), (b +:+ b'). rewrite Hs at 1. rewrite H.
  now rewrite !append_assoc.
Qed.

Lemma all_bytes_app (P : ascii -> bool) (a b : string) :
  all_bytes P (a +:+ b) = all_bytes P a && all_bytes P b.
Proof.
  induction a as [|c a IH]; [reflexivity|].
  rewrite append_cons. cbn [all_bytes]. now rewrite IH, andb_assoc.
Qed.

Lemma all_bytes_last (P : ascii -> bool) (s : string) (d : ascii) :
  all_bytes P s = true -> last_byte s = Some d -> P d = true.
Proof.
  induction s as [|c s IH]; [discriminate|]. cbn [all_bytes last_byte].
  intros [Hc Hs]%andb_true_iff. destruct s as [|c' s]; [congruence | auto].
Qed.

Lemma whitespace_bytes :
  forallb (all_bytes space_byte) Py.whitespace = true.
Proof. vm_compute. reflexivity. Qed.

Lemma blank_bytes (a : string) : blank a = true -> all_bytes space_byte a = true.
Proof.
  unfold blank. rewrite <- (implode_code_points a) at 2.
  induction (Py.code_points a) as [|g l IH]; [reflexivity|].
  cbn [forallb Py.implode]. intros [Hg Hl]%andb_true_iff.
  rewrite all_bytes_app, (IH Hl), andb_true_r.
  unfold Py.is_space in Hg. apply existsb_exists in Hg as (w & Hw & Heq).
  apply String.eqb_eq in Heq as ->.
  pose proof whitespace_bytes as H. rewrite forallb_forall in H. now apply H.
Qed.

(** An occurrence of [p] does not start in what precedes, when that is
    made of bytes [p] does not start with. *)
Lemma occurrence_after (P : ascii -> bool) (c : ascii) (p : string) :
  P c = false ->
  forall a r x y,
    all_bytes P a = true ->
    a +:+ r = x +:+ String c p +:+ y ->
    exists x', x = a +:+ x' /\ r = x' +:+ String c p +:+ y.
Proof.
  intros Hc. induction a as [|d a IH]; intros r x y Ha H.
  - now exists x.
  - cbn [all_bytes] in Ha. apply andb_true_iff in Ha as [Hd Ha].
    destruct x as [|d' x].
    + rewrite append_nil_l, !append_cons in H. congruence.
    + rewrite !append_cons in H. injection H as <- H.
      destruct (IH r x y Ha H) as (x' & -> & Hr). now exists x'.
Qed.

(** An occurrence of [p] does not end in what follows, when that is made
    of bytes [p] does not end with. *)
Lemma occurrence_at_head (P : ascii -> bool) (p : string) (d : ascii) :
  last_byte p = Some d -> P d = false ->
  forall m b y,
    all_bytes P b = true ->
    m +:+ b = p +:+ y ->
    exists y', m = p +:+ y' /\ y = y' +:+ b.
Proof.
  intros Hlast Hd. induction p as [|c p IH]; [discriminate|].
  intros m b y Hb H. destruct m as [|c' m].
  - rewrite append_nil_l in H. subst b. rewrite all_bytes_app in Hb.
    apply andb_true_iff in Hb as [Hb _].
    rewrite (all_bytes_last P _ d Hb Hlast) in Hd. discriminate.
  - rewrite !append_cons in H. injection H as <- H.
    destruct p as [|c2 p].
    + rewrite append_nil_l in H. exists m. now rewrite append_cons.
    + destruct (IH Hlast m b y Hb H) as (y' & -> & Hy).
      exists y'. now rewrite append_cons.
Qed.

Lemma occurrence_before (P : ascii -> bool) (c : ascii) (p : string)
  (d : ascii) :
  P c = false -> last_byte (String c p) = Some d -> P d = false ->
  forall x m b y,
    all_bytes P b = true ->
    m +:+ b = x +:+ String c p +:+ y ->
    exists y', m = x +:+ String c p +:+ y'.
Proof.
  intros Hc Hlast Hd. induction x as [|e x IH]; intros m b y Hb H.
  - rewrite append_nil_l in H.
    destruct (occurrence_at_head P _ d Hlast Hd m b y Hb H) as (y' & -> & _).
    now exists y'.
  - destruct m as [|e' m].
    + rewrite append_nil_l in H. subst b. rewrite append_cons in Hb.
      cbn [all_bytes] in Hb. apply andb_true_iff in Hb as [_ Hb].
      rewrite all_bytes_app in Hb. apply andb_true_iff in Hb as [_ Hb].
      rewrite append_cons in Hb. cbn [all_bytes] in Hb. 
      apply andb_true_iff in Hb as [Hb _]. congruence.
    + rewrite !append_cons in H. injection H as <- H.
      destruct (IH m b y Hb H) as (y' & ->). exists y'.
      now rewrite append_cons.
Qed.

(** [strip] keeps the occurrences of a string that starts and ends with
    other bytes than those of white space. *)
Lemma occurs_strip (p s : string) :
  edged p = true -> (occurs p (Py.strip s) <-> occurs p s).
Proof.
  intros Hp. split.
  - intros H. apply contains_spec. apply contains_strip.
    now apply contains_spec.
  - intros (x & y & Hs).
    destruct (strip_infix s) as (a & b & Hab & Ha & Hb).
    apply blank_bytes in Ha, Hb. unfold edged in Hp.
    destruct p as [|c p]; [discriminate|].
    destruct (last_byte (String c p)) as [d|] eqn:Hlast; [|discriminate].
    apply andb_true_iff in Hp as [Hc Hd]. apply negb_true_iff in Hc, Hd.
    rewrite Hab in Hs at 1.
    destruct (occurrence_after space_byte c p Hc a _ x y Ha Hs)
      as (x' & _ & Hr).
    destruct (occurrence_before space_byte c p d Hc Hlast Hd x' _ b y Hb Hr)
      as (y' & Hm).
    now exists x', y'.
Qed.

Lemma find_app {A : Type} (p : A -> bool) (l1 l2 : list A) :
  find p (l1 ++ l2) = match find p l1 with Some x => Some x | None => find p l2 end.
Proof.
  induction l1 as [|x l1 IH]; simpl; [reflexivity|].
  destruct (p x); [reflexivity | exact IH].
Qed.

Lemma find_first_match {A : Type} (p : A -> bool) (l : list A) (x : A) :
  find p l = Some x <-> first_match p l x.
Proof.
  split.
  - induction l as [|y l IH]; simpl; [discriminate|].
    destruct (p y) eqn:Hy.
    + intros [= ->]. exists [], l. repeat split; auto.
    + intros H. destruct (IH H) as (pre & post & -> & Hx & Hpre).
      exists (y :: pre), post. repeat split; auto.
  - intros (pre & post & -> & Hx & Hpre).
    induction Hpre as [|y pre Hy _ IH]; simpl.
    + now rewrite Hx.
    + now rewrite Hy.
Qed.

Lemma find_none_iff {A : Type} (p : A -> bool) (l : list A) :
  find p l = None <-> Forall (fun y => p y = false) l.
Proof.
  induction l as [|y l IH]; simpl.
  - split; auto.
  - destruct (p y) eqn:Hy.
    + split; [discriminate|]. intros H. inversion H; congruence.
    + rewrite IH. split; [auto | intros H; now inversion H].
Qed.

Lemma find_concat {A : Type} (p : A -> bool) (ls : list (list A)) :
  find p (concat ls) = head (omap (find p) ls).
Proof.
  induction ls as [|l ls IH]; simpl; [reflexivity|].
  rewrite find_app, IH. now destruct (find p l).
Qed.

Lemma fold_left_extend {A B : Type} (f : B -> list A) (l : list B)
  (acc : list A) :
  fold_left (fun tools s => tools ++ f s) l acc = acc ++ concat (map f l).
Proof.
  revert acc. induction l as [|s l IH]; intros acc; simpl.
  - now rewrite app_nil_r.
  - now rewrite IH, app_assoc.
Qed.

(* ================================================================== *)
(** * The session of [src/host/mcp-host.py] *)
(* ================================================================== *)

Section HostSession.
Context {rt : PyRuntime}.
Variables (w : Host.world) (tools : list tool).

Lemma role_line_user (c : string) :
  Host.role_line (Host.user c) = "USER: " +:+ c.
Proof.
  unfold Host.role_line. cbn [Host.user Host.role Host.content].
  now rewrite (Py.upper_ascii "user" eq_refl).
Qed.





(** C10. A [user_message] frame whose content is absent, empty or made of
    white space only, the white space being every character [str.strip]
    removes, is skipped: nothing is sent, the history is left as it was,
    and neither the selector nor the completion backend is called.  A
    content that holds another character starts a turn. *)
Theorem blank_user_message_skipped (st : Host.state) (cid : nat)
  (h : list Host.message) (raw : string) (d : list (string * json))
  (c : string) :
  json_loads raw = Ok (JObj d) ->
  dict_get "type" d = Some (JStr "user_message") ->
  default (JStr EmptyString) (dict_get "content" d) = JStr c ->
  (blank c = true ->
   Host.handle_message w tools h raw
   = {| Host.history := h; Host.sent := []; Host.calls := [] |}
   /\ (Host.sessions st !! cid = Some h ->
       Host.step w st (Frame cid raw) = (st, [], [])))
  /\ (blank c = false ->
      Host.handle_message w tools h raw
      = Host.user_turn w tools h (Py.strip c)).
Proof.
  intros Hraw Htype Hcontent.
  assert (Hmsg : forall tl,
             Host.handle_message w tl h raw
             = if Py.nonempty (Py.strip c)
               then Host.user_turn w tl h (Py.strip c)
               else Host.ignored h).
  { intros tl. unfold Host.handle_message, Host.handle_data.
    rewrite Hraw, Htype. cbn [default id is_str]. now rewrite Hcontent. }
  split.
  - intros Hblank.
    assert (Hskip : forall tl, Host.handle_message w tl h raw = Host.ignored h)
      by (intros tl; now rewrite Hmsg, (strip_blank c Hblank)).
    split; [apply Hskip|].
    intros Hsession. unfold Host.step. rewrite Hsession, Hskip.
    cbn [Host.ignored Host.history Host.sent Host.calls fmap list_fmap].
    rewrite insert_id by exact Hsession. now destruct st.
  - intros Hblank. rewrite Hmsg.
    destruct (Py.strip c) eqn:Hs; [|reflexivity].
    apply strip_empty in Hs. congruence.
Qed.

End HostSession.


Lemma blank_user_message_skipped_witness :
  blank wide_blank = true
  /\ @Host.handle_message Fragment.runtime
       (host_world [product_server] "none" ReadTimeout) []
       [Host.user "hi"] (user_frame wide_blank)
     = {| Host.history := [Host.user "hi"]; Host.sent := [];
          Host.calls := [] |}.
Proof.
  split; [reflexivity|].
  refine (proj1 (proj1 (@blank_user_message_skipped Fragment.runtime
    (host_world [product_server] "none" ReadTimeout) []
    {| Host.available_tools := []; Host.sessions := ∅ |} 0%nat
    [Host.user "hi"] (user_frame wide_blank)
    [("type", JStr "user_message"); ("content", JStr wide_blank)] wide_blank
    _ _ _) _)); reflexivity.
Defined.

(* ================================================================== *)
(** * Tool selection *)
(* ================================================================== *)

Section DelegatedSelection.
Context {rt : PyRuntime}.
Variables (w : Host.world) (tools : list tool) (message : string).

Let prompt : string := Host.tool_selection_prompt tools message.









End DelegatedSelection.


Section DeterministicSelection.
Context {rt : PyRuntime}.
Variable tools : list tool.

Lemma triggers_phrases (message_lower : string) :
  Root.triggers message_lower
  = existsb (fun phrase => Py.contains phrase message_lower) phrases.
Proof.
  unfold Root.triggers, phrases. cbn [existsb].
  now rewrite orb_false_r, orb_assoc.
Qed.

Lemma triggers_occurs (message_lower : string) :
  Root.triggers message_lower = true
  <-> exists phrase, In phrase phrases /\ occurs phrase message_lower.
Proof.
  rewrite triggers_phrases, existsb_exists.
  split; intros (phrase & Hin & H); exists phrase; (split; [exact Hin|]);
    now apply contains_spec.
Qed.

Lemma is_get_products_name (t : tool) :
  Root.is_get_products t = true <-> name t = "get_products".
Proof. apply String.eqb_eq. Qed.

(** The first descriptor named [get_products]. *)
Lemma find_get_products (t : tool) :
  find Root.is_get_products tools = Some t
  <-> exists pre post,
        tools = pre ++ t :: post
        /\ name t = "get_products"
        /\ Forall (fun t' => name t' <> "get_products") pre.
Proof.
  rewrite find_first_match. unfold first_match.
  split; intros (pre & post & Htools & Ht & Hpre); exists pre, post;
    (split; [exact Htools|]); (split; [now apply is_get_products_name|]);
    (eapply Forall_impl; [exact Hpre|]); intros t'; cbn;
    rewrite <- is_get_products_name;
    destruct (Root.is_get_products t'); congruence.
Qed.

Lemma phrase_occurs_strip (phrase s : string) :
  In phrase phrases -> (occurs phrase (Py.strip s) <-> occurs phrase s).
Proof.
  intros Hin. apply occurs_strip.
  destruct Hin as [<- | [<- | [<- | []]]]; reflexivity.
Qed.

Lemma selected_tool_phrase (message : string) :
  (exists phrase, In phrase phrases /\ occurs phrase (Py.lower message)) ->
  Root.selected_tool tools message = find Root.is_get_products tools.
Proof.
  intros (phrase & Hin & Hocc). unfold Root.selected_tool.
  assert (H : Root.triggers (Py.strip (Py.lower message)) = true).
  { apply triggers_occurs. exists phrase. split; [exact Hin|].
    now apply phrase_occurs_strip. }
  now rewrite H.
Qed.

Lemma selected_tool_no_phrase (message : string) :
  (forall phrase, In phrase phrases -> ~ occurs phrase (Py.lower message)) ->
  Root.selected_tool tools message = None.
Proof.
  intros H. unfold Root.selected_tool.
  destruct (Root.triggers _) eqn:Ht; [|reflexivity].
  apply triggers_occurs in Ht as (phrase & Hin & Hocc).
  apply (proj1 (phrase_occurs_strip phrase _ Hin)) in Hocc.
  destruct (H phrase Hin Hocc).
Qed.

Lemma lower_show_products :
  occurs "show products" (Py.lower "please show products")
  /\ occurs "show products" (Py.lower "Please SHOW Products").
Proof.
  rewrite (Py.lower_ascii "please show products" eq_refl).
  rewrite (Py.lower_ascii "Please SHOW Products" eq_refl).
  split; now exists "please ", EmptyString.
Qed.

Lemma weather_selects_nothing :
  Root.selected_tool tools "what's the weather" = None.
Proof.
  unfold Root.selected_tool.
  now rewrite (Py.lower_ascii "what's the weather" eq_refl).
Qed.

(** C8. The selector puts the utterance in lower case and tests whether
    one of the trigger phrases of the products tool is a substring of it.
    When one is, it returns the first registered descriptor whose name is
    [get_products]; it returns nothing when no phrase occurs in the
    utterance, and when no descriptor has that name.  [please show
    products], in any case of letters, selects the descriptor named
    [get_products]; [what's the weather] selects nothing and the turn goes
    to the completion backend. *)
Theorem deterministic_selection :
  (forall message phrase pre t post,
     In phrase phrases ->
     occurs phrase (Py.lower message) ->
     tools = pre ++ t :: post ->
     name t = "get_products" ->
     Forall (fun t' => name t' <> "get_products") pre ->
     Root.selected_tool tools message = Some t)
  /\ (forall message,
        (forall phrase, In phrase phrases ->
                        ~ occurs phrase (Py.lower message)) ->
        Root.selected_tool tools message = None)
  /\ (Forall (fun t => name t <> "get_products") tools ->
      forall message, Root.selected_tool tools message = None)
  /\ (forall message t,
        Root.selected_tool tools message = Some t ->
        (exists phrase, In phrase phrases
                        /\ occurs phrase (Py.lower message))
        /\ exists pre post,
             tools = pre ++ t :: post
             /\ name t = "get_products"
             /\ Forall (fun t' => name t' <> "get_products") pre)
  /\ (forall pre t post,
        tools = pre ++ t :: post ->
        name t = "get_products" ->
        Forall (fun t' => name t' <> "get_products") pre ->
        Root.selected_tool tools "please show products" = Some t
        /\ Root.selected_tool tools "Please SHOW Products" = Some t)
  /\ Root.selected_tool tools "what's the weather" = None
  /\ (forall w h,
        Root.handle_data w tools h
          (JObj [("type", JStr "user_message");
                 ("content", JStr "what's the weather")])
        = Root.use_llm w tools
            (h ++ [Root.user (JStr "what's the weather")])
            "what's the weather").
Proof.
  assert (Hfirst : forall message phrase pre t post,
     In phrase phrases ->
     occurs phrase (Py.lower message) ->
     tools = pre ++ t :: post ->
     name t = "get_products" ->
     Forall (fun t' => name t' <> "get_products") pre ->
     Root.selected_tool tools message = Some t).
  { intros message phrase pre t post Hin Hocc Htools Ht Hpre.
    rewrite selected_tool_phrase by eauto.
    apply find_get_products. now exists pre, post. }
  split; [exact Hfirst|]. split; [exact selected_tool_no_phrase|].
  split; [|split; [|split; [|split]]].
  - intros Hall message. unfold Root.selected_tool.
    destruct (Root.triggers _); [|reflexivity].
    destruct (find Root.is_get_products tools) as [t|] eqn:Hfind;
      [|reflexivity].
    apply find_get_products in Hfind as (pre & post & -> & Ht & _).
    apply Forall_app in Hall as [_ Hall]. inversion Hall; contradiction.
  - intros message t Hsel. unfold Root.selected_tool in Hsel.
    destruct (Root.triggers _) eqn:Ht; [|discriminate].
    split; [|now apply find_get_products].
    apply triggers_occurs in Ht as (phrase & Hin & Hocc).
    exists phrase. split; [exact Hin|].
    now apply (proj1 (phrase_occurs_strip phrase _ Hin)) in Hocc.
  - intros pre t post Htools Ht Hpre.
    destruct lower_show_products as [H1 H2].
    split; eapply (Hfirst _ "show products"); eauto; cbn; auto.
  - exact weather_selects_nothing.
  - intros w h. unfold Root.handle_data. cbn.
    unfold Root.check_and_use_tools. now rewrite weather_selects_nothing.
Qed.

End DeterministicSelection.

Lemma deterministic_selection_witness :
  @Root.selected_tool Fragment.runtime
    (Root.discover_tools (root_world [])) "please show products"
  = Some get_products_tool.
Proof.
  refine (proj1 (proj1 (proj2 (proj2 (proj2 (proj2
    (@deterministic_selection Fragment.runtime
       (Root.discover_tools (root_world []))))))) [] get_products_tool []
    eq_refl eq_refl _)).
  constructor.
Defined.

(* ================================================================== *)
(** * Failures of a tool request *)
(* ================================================================== *)

Lemma on_exception_clauses (tool_name : string) (c : httpx_exn) (msg : string) :
  Host.on_exception tool_name (Some c) msg
  = if is_RequestError c then Host.connection_error_reply tool_name
    else Host.exception_reply tool_name msg.
Proof. now destruct c. Qed.

Lemma timeout_is_request_error (c : httpx_exn) :
  is_TimeoutException c = true -> is_RequestError c = true.
Proof. now destruct c. Qed.

(** C3. At a request that times out, the reply of the host is the one of a
    connection error: the clause for [httpx.RequestError] comes first and
    catches the timeout, the clause with [taking too long] handles no
    exception.  The reply names the tool, the session goes on. *)
Theorem timeout_reported_as_connection_error :
  (forall tool_name c msg,
     Host.on_exception tool_name (Some c) msg
     = if is_RequestError c then Host.connection_error_reply tool_name
       else Host.exception_reply tool_name msg)
  /\ (Host.check_and_use_tools
        (host_world [product_server] "get_products" ReadTimeout)
        (Host.discover_tools
           (host_world [product_server] "get_products" ReadTimeout))
        "show products").1
     = Some (Host.connection_error_reply "get_products")
  /\ (Host.check_and_use_tools
        (host_world [product_server] "get_products" ReadTimeout)
        (Host.discover_tools
           (host_world [product_server] "get_products" ReadTimeout))
        "show products").1
     = (Host.check_and_use_tools
          (host_world [product_server] "get_products" ConnectError)
          (Host.discover_tools
             (host_world [product_server] "get_products" ConnectError))
          "show products").1
  /\ Py.contains "taking too long"
       (Host.connection_error_reply "get_products") = false
  /\ Py.contains "get_products"
       (Host.connection_error_reply "get_products") = true
  /\ Host.history
       (@Host.handle_message Fragment.runtime
          (host_world [product_server] "get_products" ReadTimeout)
          (Host.discover_tools
             (host_world [product_server] "get_products" ReadTimeout))
          [] (user_frame "show products"))
     = [Host.user "show products";
        Host.assistant (Host.connection_error_reply "get_products")].
Proof.
  split; [exact on_exception_clauses|].
  repeat split; vm_compute; reflexivity.
Qed.

(* ================================================================== *)
(** * The event stream of [src/mcp-host.py] *)
(* ================================================================== *)

Section EventStream.
Context {rt : PyRuntime}.

Lemma same_outcome_refl (r : res Root.sse_state) : same_outcome r r.
Proof. now destruct r. Qed.

(** The log does not steer the loop. *)
Lemma sse_line_same_data (a b : Root.sse_state) (line : string) :
  Root.products_data a = Root.products_data b ->
  match Root.sse_line a line, Root.sse_line b line with
  | Root.Continue a', Root.Continue b'
  | Root.Break a', Root.Break b' =>
      Root.products_data a' = Root.products_data b'
  | Root.Raised e1, Root.Raised e2 => e1 = e2
  | _, _ => False
  end.
Proof.
  intros Hab. unfold Root.sse_line.
  destruct (Py.startswith "data: " line).
  - destruct (json_loads _) as [data|e];
      [|destruct e; first [exact Hab | reflexivity]].
    destruct (py_in "result" data) as [[|]|e]; [| |reflexivity].
    + now destruct (py_index "result" data).
    + destruct (py_in "error" data) as [[|]|e]; [| exact Hab | reflexivity].
      now destruct (py_index "error" data).
  - now destruct (Py.startswith "event: close" line).
Qed.

Lemma sse_loop_same_data (lines : list string) (broken : option exn) :
  forall a b,
    Root.products_data a = Root.products_data b ->
    same_outcome (Root.sse_loop a lines broken) (Root.sse_loop b lines broken).
Proof.
  induction lines as [|line rest IH]; intros a b Hab; simpl.
  - now destruct broken.
  - pose proof (sse_line_same_data a b line Hab) as H.
    destruct (Root.sse_line a line), (Root.sse_line b line);
      try contradiction; simpl; auto.
Qed.

Lemma sse_line_malformed (bad : string) (st : Root.sse_state) :
  Py.startswith "data: " bad = true ->
  json_loads (Py.drop_chars 6 bad) = Raise JSONDecodeError ->
  Root.sse_line st bad
  = Root.Continue (Root.logged (Root.Failed_to_parse_SSE_data bad) st).
Proof. intros Hp Hj. unfold Root.sse_line. now rewrite Hp, Hj. Qed.

Lemma sse_line_break (st st' : Root.sse_state) (line : string) :
  Root.sse_line st line = Root.Break st' <->
  Py.startswith "data: " line = false
  /\ Py.startswith "event: close" line = true
  /\ st' = Root.logged Root.SSE_stream_closed st.
Proof.
  unfold Root.sse_line. destruct (Py.startswith "data: " line).
  - split; [|intros [? _]; discriminate].
    destruct (json_loads _) as [data|e]; [|destruct e; discriminate].
    destruct (py_in "result" data) as [[|]|e]; [| |discriminate].
    + now destruct (py_index "result" data).
    + destruct (py_in "error" data) as [[|]|e]; try discriminate.
      now destruct (py_index "error" data).
  - destruct (Py.startswith "event: close" line).
    + split; [intros [= <-]; auto | intros (_ & _ & ->); reflexivity].
    + split; [discriminate | intros (_ & ? & _); discriminate].
Qed.

Lemma sse_line_result (st : Root.sse_state) (good : string)
  (d : list (string * json)) (v : json) :
  Py.startswith "data: " good = true ->
  json_loads (Py.drop_chars 6 good) = Ok (JObj d) ->
  dict_get "result" d = Some v ->
  Root.sse_line st good
  = Root.Continue
      {| Root.products_data := v;
         Root.sse_log := Root.sse_log st ++ [Root.Received_products_data v] |}.
Proof.
  intros Hp Hj Hv. unfold Root.sse_line. rewrite Hp, Hj.
  cbn [py_in py_index]. now rewrite Hv.
Qed.

(** On a readable line the loop goes on, and only adds to its log. *)
Lemma sse_line_readable (st : Root.sse_state) (line : string) :
  readable line ->
  exists st1 entries,
    Root.sse_line st line = Root.Continue st1
    /\ Root.sse_log st1 = Root.sse_log st ++ entries.
Proof.
  intros [Hother | [Hp [Hj | [d Hj]]]]; unfold Root.sse_line.
  - unfold is_other_line in Hother.
    apply andb_true_iff in Hother as [Hd Hc]. apply negb_true_iff in Hd, Hc.
    rewrite Hd, Hc. exists st, []. now rewrite app_nil_r.
  - rewrite Hp, Hj. now eexists _, [_].
  - rewrite Hp, Hj. cbn [py_in py_index].
    destruct (dict_get "result" d) as [v|] eqn:Hv.
    + rewrite bool_decide_eq_true_2 by eauto. now eexists _, [_].
    + rewrite bool_decide_eq_false_2 by (intros [x Hx]; discriminate).
      destruct (dict_get "error" d) as [err|] eqn:He.
      * rewrite bool_decide_eq_true_2 by eauto. now eexists _, [_].
      * rewrite bool_decide_eq_false_2 by (intros [x Hx]; discriminate).
        exists st, []. now rewrite app_nil_r.
Qed.

Lemma sse_loop_readable (between : list string) :
  Forall readable between ->
  forall st rest broken,
    exists st1 entries,
      Root.sse_loop st (between ++ rest) broken = Root.sse_loop st1 rest broken
      /\ Root.sse_log st1 = Root.sse_log st ++ entries.
Proof.
  induction 1 as [|line between Hline _ IH]; intros st rest broken.
  - exists st, []. now rewrite app_nil_r.
  - destruct (sse_line_readable st line Hline) as (st1 & es1 & Hst1 & Hlog1).
    destruct (IH st1 rest broken) as (st2 & es2 & Hst2 & Hlog2).
    exists st2, (es1 ++ es2). cbn [app Root.sse_loop]. rewrite Hst1.
    split; [exact Hst2|]. now rewrite Hlog2, Hlog1, app_assoc.
Qed.

(** C6. A data line whose text is not JSON is logged as such and the loop
    goes on with the next line: the rest of the stream is decoded as if the
    line were not there.  The result of a later data line is received when
    the lines between the two are readable: lines that are not data lines,
    data lines that are not JSON, data lines that hold an object.  The
    body of the loop breaks only at the [event: close] line. *)
Theorem malformed_line_does_not_abort (bad : string) :
  Py.startswith "data: " bad = true ->
  json_loads (Py.drop_chars 6 bad) = Raise JSONDecodeError ->
  (forall st,
     Root.sse_line st bad
     = Root.Continue (Root.logged (Root.Failed_to_parse_SSE_data bad) st))
  /\ (forall st rest broken,
        Root.sse_loop st (bad :: rest) broken
        = Root.sse_loop (Root.logged (Root.Failed_to_parse_SSE_data bad) st)
            rest broken)
  /\ (forall st before rest broken,
        same_outcome (Root.sse_loop st (before ++ bad :: rest) broken)
                     (Root.sse_loop st (before ++ rest) broken))
  /\ (forall st between good d v,
        Forall readable between ->
        Py.startswith "data: " good = true ->
        json_loads (Py.drop_chars 6 good) = Ok (JObj d) ->
        dict_get "result" d = Some v ->
        exists st' entries,
          Root.sse_loop st (bad :: between ++ [good]) None = Ok st'
          /\ Root.products_data st' = v
          /\ Root.sse_log st'
             = Root.sse_log st
               ++ Root.Failed_to_parse_SSE_data bad
                  :: entries ++ [Root.Received_products_data v])
  /\ (forall st line st',
        Root.sse_line st line = Root.Break st' <->
        Py.startswith "data: " line = false
        /\ Py.startswith "event: close" line = true
        /\ st' = Root.logged Root.SSE_stream_closed st).
Proof.
  intros Hp Hj.
  assert (Hline := fun st => sse_line_malformed bad st Hp Hj).
  split; [exact Hline|]. split; [|split; [|split]].
  - intros st rest broken. simpl. now rewrite Hline.
  - intros st before. revert st.
    induction before as [|line before IH]; intros st rest broken.
    + simpl. rewrite Hline. now apply sse_loop_same_data.
    + simpl. destruct (Root.sse_line st line); [apply IH | |]; reflexivity.
  - intros st between good d v Hbetween Hgp Hgj Hv.
    cbn [Root.sse_loop]. rewrite Hline.
    destruct (sse_loop_readable between Hbetween
                (Root.logged (Root.Failed_to_parse_SSE_data bad) st)
                [good] None) as (st1 & entries & Hst1 & Hlog1).
    rewrite Hst1. cbn [Root.sse_loop].
    rewrite (sse_line_result _ good d v Hgp Hgj Hv).
    eexists _, entries. split; [reflexivity|]. split; [reflexivity|].
    cbn [Root.sse_log Root.logged] in *. rewrite Hlog1.
    now rewrite <- !app_assoc.
  - intros st line st'. apply sse_line_break.
Qed.

(** *** The payload kept at the end of the stream *)

Lemma last_cons_default (d v : json) (l : list json) :
  default d (last (v :: l)) = default v (last l).
Proof.
  revert d v. induction l as [|x l IH]; intros d v; [reflexivity|].
  change (last (v :: x :: l)) with (last (x :: l)).
  now rewrite (IH d x), (IH v x).
Qed.

(** What a line does to the payload kept. *)
Lemma sse_line_payload (st : Root.sse_state) (line : string) :
  match Root.sse_line st line with
  | Root.Continue st1 =>
      is_close_line line = false
      /\ Root.products_data st1
         = default (Root.products_data st) (line_result line)
  | Root.Break st1 =>
      is_close_line line = true
      /\ Root.products_data st1 = Root.products_data st
  | Root.Raised _ => True
  end.
Proof.
  unfold Root.sse_line, line_result, is_close_line.
  destruct (Py.startswith "data: " line).
  - destruct (json_loads _) as [data|e];
      [|destruct e; first [exact I | now split]].
    destruct data as [ | | | s | l | d]; cbn [py_in py_index]; try exact I.
    + destruct (Py.contains "result" s); [exact I|].
      now destruct (Py.contains "error" s).
    + destruct (existsb (is_str "result") l); [exact I|].
      now destruct (existsb (is_str "error") l).
    + destruct (dict_get "result" d) as [v|] eqn:Hv.
      * rewrite bool_decide_eq_true_2 by eauto. now split.
      * rewrite bool_decide_eq_false_2 by (intros [x Hx]; discriminate).
        destruct (dict_get "error" d) as [err|] eqn:He.
        -- rewrite bool_decide_eq_true_2 by eauto. now split.
        -- rewrite bool_decide_eq_false_2 by (intros [x Hx]; discriminate).
           now split.
  - destruct (Py.startswith "event: close" line); now split.
Qed.

(** The payload kept when the loop ends is the last one the stream
    carries before it closes. *)
Lemma sse_loop_payload (lines : list string) (broken : option exn) :
  forall st st',
    Root.sse_loop st lines broken = Ok st' ->
    Root.products_data st'
    = default (Root.products_data st) (last (results_of lines)).
Proof.
  unfold results_of.
  induction lines as [|line rest IH]; intros st st'; cbn [Root.sse_loop].
  - destruct broken; [discriminate|]. now intros [= <-].
  - pose proof (sse_line_payload st line) as H.
    destruct (Root.sse_line st line) as [st1|st1|e]; [| |discriminate].
    + destruct H as [Hclose Hdata]. intros Hloop. apply IH in Hloop.
      cbn [until_close]. rewrite Hclose, Hloop, Hdata.
      cbn [omap list_omap].
      destruct (line_result line) as [v|]; [|reflexivity].
      cbn [default from_option id]. symmetry. apply last_cons_default.
    + destruct H as [Hclose Hdata]. intros [= <-].
      cbn [until_close]. now rewrite Hclose.
Qed.

End EventStream.

Lemma malformed_line_does_not_abort_witness :
  @Root.sse_loop Fragment.runtime Root.sse_init
    [data_line "not-json"; EmptyString; result_1; EmptyString] None
  = Ok {| Root.products_data := JNum 1;
          Root.sse_log :=
            [Root.Failed_to_parse_SSE_data (data_line "not-json");
             Root.Received_products_data (JNum 1)] |}.
Proof.
  rewrite (proj1 (proj2 (@malformed_line_does_not_abort Fragment.runtime
                           (data_line "not-json") eq_refl eq_refl))).
  reflexivity.
Defined.

(** A data line that holds a number, after a line that is not JSON and
    before a result and the closing line: the loop raises at the number,
    the result that follows is not received and the run of the tool gives
    nothing.  A stream without a closing line: the loop ends when the
    lines run out. *)
Lemma later_result_lost :
  @Root.sse_loop Fragment.runtime Root.sse_init
    [data_line "not-json"; data_line "5"; result_1; "event: close"] None
  = Raise TypeError
  /\ @Root.sse_loop Fragment.runtime Root.sse_init
       [data_line "not-json"; result_1; "event: close"] None
     = Ok {| Root.products_data := JNum 1;
             Root.sse_log :=
               [Root.Failed_to_parse_SSE_data (data_line "not-json");
                Root.Received_products_data (JNum 1);
                Root.SSE_stream_closed] |}
  /\ @Root.check_and_use_tools Fragment.runtime
       (root_world
          [data_line "not-json"; data_line "5"; result_1; "event: close"])
       (Root.discover_tools
          (root_world
             [data_line "not-json"; data_line "5"; result_1;
              "event: close"]))
       "show products" = None
  /\ @Root.sse_loop Fragment.runtime Root.sse_init
       [data_line "not-json"; result_1] None
     = Ok {| Root.products_data := JNum 1;
             Root.sse_log :=
               [Root.Failed_to_parse_SSE_data (data_line "not-json");
                Root.Received_products_data (JNum 1)] |}.
Proof.
  split; [vm_compute; reflexivity|].
  split; [vm_compute; reflexivity|].
  split; vm_compute; reflexivity.
Qed.

Section ToolRun.
Context {rt : PyRuntime}.
Variables (w : Root.world) (tools : list tool).

Lemma handle_user_message (h : list Root.message) (message : string) :
  Root.handle_data w tools h
    (JObj [("type", JStr "user_message"); ("content", JStr message)])
  = match Root.check_and_use_tools w tools message with
    | Some (String _ _ as tool_response) =>
        (h ++ [Root.user (JStr message); Root.assistant (JStr tool_response)],
         [Root.Llm_response (JStr message) (JStr tool_response)])
    | _ => Root.use_llm w tools (h ++ [Root.user (JStr message)]) message
    end.
Proof.
  unfold Root.handle_data. cbn.
  destruct (Root.check_and_use_tools w tools message) as [[|c r]|];
    try reflexivity.
  now rewrite <- app_assoc.
Qed.

(** C5. When the stream of a tool run ends, the payload kept is the last
    result the lines of the stream carry before the closing line, and the
    reply is made of it.  When the stream carries no result,
    [check_and_use_tools] returns [None]: the host sends no reply of its
    own and the turn goes to the completion backend, whatever was appended
    to the history while the tool ran. *)
Theorem stream_without_result_falls_through (message : string) (t : tool)
  (s : server) (servers : list server) (lines : list string)
  (broken : option exn) (st' : Root.sse_state) :
  Root.selected_tool tools message = Some t ->
  Root.tool_servers w = s :: servers ->
  Root.run_stream w (srv_url s +:+ "/run") = Root.RunStream 200 lines broken ->
  Root.sse_loop Root.sse_init lines broken = Ok st' ->
  Root.products_data st' = default JNull (last (results_of lines))
  /\ Root.check_and_use_tools w tools message
     = Root.after_stream (default JNull (last (results_of lines)))
  /\ (results_of lines = [] ->
      Root.check_and_use_tools w tools message = None
      /\ (forall now,
            Root.finish_turn w tools now message
            = Root.use_llm w tools now message)
      /\ forall h,
           Root.handle_data w tools h
             (JObj [("type", JStr "user_message"); ("content", JStr message)])
           = Root.use_llm w tools (h ++ [Root.user (JStr message)]) message).
Proof.
  intros Hsel Hservers Hrun Hloop.
  pose proof (sse_loop_payload lines broken _ _ Hloop) as Hkeep.
  cbn [Root.sse_init Root.products_data] in Hkeep.
  assert (Hcheck : Root.check_and_use_tools w tools message
                   = Root.after_stream
                       (default JNull (last (results_of lines)))).
  { unfold Root.check_and_use_tools, Root.use_get_products.
    now rewrite Hsel, Hservers, Hrun, Hloop, Hkeep. }
  split; [exact Hkeep|]. split; [exact Hcheck|].
  intros Hnone.
  assert (Hn : Root.check_and_use_tools w tools message = None)
    by (now rewrite Hcheck, Hnone).
  split; [exact Hn|]. split.
  - intros now. unfold Root.finish_turn. now rewrite Hn.
  - intros h. now rewrite handle_user_message, Hn.
Qed.

End ToolRun.

Lemma stream_without_result_falls_through_witness :
  @Root.check_and_use_tools Fragment.runtime
    (root_world [result_1; result_2; "event: close"; result_1])
    (Root.discover_tools
       (root_world [result_1; result_2; "event: close"; result_1]))
    "show products"
  = Some (Root.found_header +:+ "Found product data: 2").
Proof.
  exact (proj1 (proj2
    (@stream_without_result_falls_through Fragment.runtime
       (root_world [result_1; result_2; "event: close"; result_1])
       (Root.discover_tools
          (root_world [result_1; result_2; "event: close"; result_1]))
       "show products" get_products_tool product_server []
       [result_1; result_2; "event: close"; result_1] None
       {| Root.products_data := JNum 2;
          Root.sse_log := [Root.Received_products_data (JNum 1);
                           Root.Received_products_data (JNum 2);
                           Root.SSE_stream_closed] |}
       eq_refl eq_refl eq_refl eq_refl))).
Defined.

(** A stream that closes without a result: the frame sent back is the
    answer of the completion backend, no reply tells that the tool gave
    nothing. *)
Lemma no_result_answered_by_backend :
  @Root.handle_message Fragment.runtime
    (root_world ["event: close"; data_line "{}"; EmptyString])
    (Root.discover_tools
       (root_world ["event: close"; data_line "{}"; EmptyString]))
    [] (user_frame "show products")
  = ([Root.user (JStr "show products");
      Root.assistant (JStr "answer to 1 messages")],
     [Root.Llm_response (JStr "show products")
        (JStr "answer to 1 messages")]).
Proof. vm_compute. reflexivity. Qed.

(* ================================================================== *)
(** * The reply made of a list of products *)
(* ================================================================== *)

Section ProductList.
Context {rt : PyRuntime}.

Lemma product_entry_object (i : nat) (d : list (string * json)) :
  Root.product_entry i (JObj d) = Ok (entry_text i d).
Proof.
  unfold Root.product_entry, entry_text.
  now destruct (dict_get "brand_name" d).
Qed.

Lemma enumerate_listing (ds : list (list (string * json))) :
  forall i response_text,
    Root.enumerate_products i (JObj <$> ds) response_text
    = Ok (response_text +:+ listing i ds).
Proof.
  induction ds as [|d ds IH]; intros i response_text.
  - simpl. now rewrite append_nil_r.
  - cbn [fmap list_fmap Root.enumerate_products listing].
    change (list_fmap _ _ JObj ds) with (JObj <$> ds).
    now rewrite product_entry_object, IH, append_assoc.
Qed.

(** C2. The reply made of a list of [M] products, [M] at least one: the
    header, the entries of the first ten products, ranked from 1, and,
    when [M] exceeds ten, the suffix [(Showing 10 of M products)]. *)
Theorem list_payload_reply (ds : list (list (string * json))) :
  ds <> [] ->
  Root.after_stream (JList (JObj <$> ds))
  = Some (Root.found_header +:+ listing 1 (take 10 ds)
          +:+ (if (10 <? length ds)%nat
               then "(Showing 10 of " +:+ Py.str_nat (length ds)
                    +:+ " products)"
               else EmptyString)).
Proof.
  intros Hne. unfold Root.after_stream.
  assert (Htruth : py_truth (JList (JObj <$> ds)) = true)
    by (destruct ds; [contradiction | reflexivity]).
  rewrite Htruth. unfold Root.format_products.
  rewrite <- fmap_take, enumerate_listing, length_fmap.
  cbn [mbind res_bind].
  destruct (10 <? length ds)%nat eqn:Hlen.
  - now rewrite !append_assoc.
  - destruct ds; [contradiction|]. cbn [length Nat.eqb].
    now rewrite append_nil_r.
Qed.

End ProductList.

Lemma list_payload_reply_witness :
  [widget] <> []
  /\ @Root.after_stream Fragment.runtime (JList [JObj widget])
     = Some ("Here are the products I found:" +:+ Py.nl +:+ Py.nl
             +:+ "1. Widget by Acme" +:+ Py.nl +:+ Py.nl).
Proof.
  split; [discriminate|].
  exact (@list_payload_reply Fragment.runtime [widget] ltac:(discriminate)).
Defined.

(** Twelve products: the reply ends with [(Showing 10 of 12 products)],
    the text [(Showing 10 of 12)] does not occur in it.  The empty list:
    no reply is made. *)
Lemma showing_suffix_differs :
  (exists reply,
     @Root.after_stream Fragment.runtime (JList (replicate 12 (JObj widget)))
     = Some reply
     /\ Py.contains "(Showing 10 of 12)" reply = false
     /\ Py.contains "(Showing 10 of 12 products)" reply = true)
  /\ @Root.after_stream Fragment.runtime (JList []) = None.
Proof.
  split; [|reflexivity].
  eexists. split; [vm_compute; reflexivity|].
  split; vm_compute; reflexivity.
Qed.

(* ================================================================== *)
(** * The registry *)
(* ================================================================== *)

Section Registry.
Context {rt : PyRuntime}.

Lemma root_discover_server_extend (w : Root.world) (tools : list tool)
  (s : server) :
  Root.discover_server w tools s = tools ++ root_server_tools w s.
Proof.
  unfold root_server_tools, Root.discover_server.
  destruct (Root.requests_get w _) as [e | status_code [ts | e]];
    [|destruct (status_code =? 200)..]; now rewrite ?app_nil_r.
Qed.

Lemma find_concat_fmap {A B : Type} (p : A -> bool) (f : B -> list A)
  (l : list B) :
  find p (concat (f <$> l)) = head (omap (fun s => find p (f s)) l).
Proof.
  induction l as [|s l IH]; [reflexivity|].
  cbn [fmap list_fmap concat omap list_omap].
  rewrite find_app. destruct (find p (f s)); [reflexivity | exact IH].
Qed.

Lemma root_discover_concat (w : Root.world) :
  Root.discover_tools w
  = concat (root_server_tools w <$> Root.tool_servers w).
Proof.
  unfold Root.discover_tools.
  enough (H : forall l acc,
             fold_left (Root.discover_server w) l acc
             = acc ++ concat (root_server_tools w <$> l)) by apply H.
  induction l as [|s l IH]; intros acc; simpl.
  - now rewrite app_nil_r.
  - now rewrite IH, root_discover_server_extend, app_assoc.
Qed.

Lemma host_discover_concat (w : Host.world) :
  Host.discover_tools w
  = concat (Host.server_tools w <$> Host.tool_servers w).
Proof.
  unfold Host.discover_tools.
  exact (fold_left_extend (Host.server_tools w) (Host.tool_servers w) []).
Qed.

(** C4. The registry is the descriptors of the servers, one server after
    the other in the order of the configuration, all of them kept; a scan
    of the registry for a descriptor returns the one of the earliest
    server that has a match. *)
Theorem registry_first_seen_lookup :
  (forall w : Root.world,
     Root.discover_tools w
     = concat (root_server_tools w <$> Root.tool_servers w))
  /\ (forall w : Host.world,
        Host.discover_tools w
        = concat (Host.server_tools w <$> Host.tool_servers w))
  /\ (forall (w : Root.world) (p : tool -> bool),
        find p (Root.discover_tools w)
        = head (omap (fun s => find p (root_server_tools w s))
                  (Root.tool_servers w)))
  /\ (forall (w : Host.world) (p : tool -> bool),
        find p (Host.discover_tools w)
        = head (omap (fun s => find p (Host.server_tools w s))
                  (Host.tool_servers w))).
Proof.
  split; [exact root_discover_concat|]. split; [exact host_discover_concat|].
  split; intros w p.
  - rewrite root_discover_concat. apply find_concat_fmap.
  - rewrite host_discover_concat. apply find_concat_fmap.
Qed.

End Registry.

(** Two servers that declare the products tool: the registry holds the
    name twice; the scan returns the descriptor of the first. *)
Lemma duplicate_names_kept :
  name <$> Host.discover_tools
             (host_world [product_server; product_mirror] "none" ReadTimeout)
  = ["get_products"; "get_products"]
  /\ ~ NoDup (name <$> Host.discover_tools
                (host_world [product_server; product_mirror] "none"
                   ReadTimeout))
  /\ url <$> find Root.is_get_products
               (Host.discover_tools
                  (host_world [product_server; product_mirror] "none"
                     ReadTimeout))
     = Some (Some "http://localhost:5001/products").
Proof.
  split; [reflexivity|]. split; [|reflexivity].
  change (~ NoDup ["get_products"; "get_products"]).
  intros H. apply NoDup_cons in H as [H _]. apply H. left.
Qed.

(* ================================================================== *)
(** * Connections side by side *)
(* ================================================================== *)

Section Isolation.
Context {rt : PyRuntime}.
Variable w : Host.world.

Lemma frames_to_app {F : Type} (c : nat) (a b : list (nat * F)) :
  frames_to c (a ++ b) = frames_to c a ++ frames_to c b.
Proof. unfold frames_to. now rewrite filter_app, fmap_app. Qed.

Lemma frames_to_other {F : Type} (c d : nat) (l : list F) :
  d <> c -> frames_to c (pair d <$> l) = [].
Proof.
  intros Hne. unfold frames_to. induction l as [|x l IH]; [reflexivity|].
  cbn [fmap list_fmap]. rewrite filter_cons_False by (simpl; exact Hne).
  exact IH.
Qed.

Lemma frames_to_own {F : Type} (c : nat) (l : list F) :
  frames_to c (pair c <$> l) = l.
Proof.
  unfold frames_to. induction l as [|x l IH]; [reflexivity|].
  cbn [fmap list_fmap]. rewrite filter_cons_True by reflexivity.
  cbn [fmap list_fmap snd]. f_equal. exact IH.
Qed.

Lemma step_tools (st : Host.state) (ev : event) :
  Host.available_tools (Host.step w st ev).1.1 = Host.available_tools st.
Proof.
  destruct ev as [d|d raw|d]; simpl; try reflexivity.
  now destruct (Host.sessions st !! d).
Qed.

(** An event of another connection. *)
Lemma step_other (st : Host.state) (ev : event) (c : nat) :
  conn_of ev <> c ->
  Host.sessions (Host.step w st ev).1.1 !! c = Host.sessions st !! c
  /\ frames_to c (Host.step w st ev).1.2 = [].
Proof.
  destruct ev as [d|d raw|d]; simpl; intros Hne.
  - rewrite lookup_insert_ne by exact Hne. split; [reflexivity|].
    exact (frames_to_other c d [Host.greeting] Hne).
  - destruct (Host.sessions st !! d) as [h|]; simpl; [|now split].
    rewrite lookup_insert_ne by exact Hne. split; [reflexivity|].
    now apply frames_to_other.
  - rewrite lookup_delete_ne by exact Hne. now split.
Qed.

(** An event of the connection itself: what it does depends on the
    registry and on the history of the connection only. *)
Lemma step_own (st1 st2 : Host.state) (ev : event) (c : nat) :
  conn_of ev = c ->
  Host.available_tools st1 = Host.available_tools st2 ->
  Host.sessions st1 !! c = Host.sessions st2 !! c ->
  Host.sessions (Host.step w st1 ev).1.1 !! c
  = Host.sessions (Host.step w st2 ev).1.1 !! c
  /\ (Host.step w st1 ev).1.2 = (Host.step w st2 ev).1.2.
Proof.
  destruct ev as [d|d raw|d]; simpl; intros <- Htools Hsess.
  - now rewrite !lookup_insert_eq.
  - rewrite Hsess, Htools.
    destruct (Host.sessions st2 !! d) as [h|] eqn:Hd; simpl.
    + now rewrite !lookup_insert_eq.
    + now rewrite Hsess, Hd.
  - now rewrite !lookup_delete_eq.
Qed.

Lemma run_cons (st : Host.state) (ev : event) (rest : list event) :
  Host.run w st (ev :: rest)
  = ((Host.run w (Host.step w st ev).1.1 rest).1,
     (Host.step w st ev).1.2 ++ (Host.run w (Host.step w st ev).1.1 rest).2).
Proof.
  simpl. destruct (Host.step w st ev) as [[st1 out1] made].
  cbn [fst snd]. now destruct (Host.run w st1 rest).
Qed.

Lemma run_tools (evs : list event) :
  forall st, Host.available_tools (Host.run w st evs).1
             = Host.available_tools st.
Proof.
  induction evs as [|ev rest IH]; intros st; [reflexivity|].
  rewrite run_cons. cbn [fst]. now rewrite IH, step_tools.
Qed.

Lemma run_projection (c : nat) (evs : list event) :
  forall st1 st2,
    Host.available_tools st1 = Host.available_tools st2 ->
    Host.sessions st1 !! c = Host.sessions st2 !! c ->
    Host.sessions (Host.run w st1 evs).1 !! c
    = Host.sessions (Host.run w st2 (events_of c evs)).1 !! c
    /\ frames_to c (Host.run w st1 evs).2
       = frames_to c (Host.run w st2 (events_of c evs)).2.
Proof.
  induction evs as [|ev rest IH]; intros st1 st2 Htools Hsess.
  - now split.
  - unfold events_of. rewrite run_cons. cbn [fst snd].
    destruct (decide (conn_of ev = c)) as [Hc|Hc].
    + rewrite filter_cons_True by exact Hc. fold (events_of c rest).
      rewrite run_cons. cbn [fst snd].
      destruct (step_own st1 st2 ev c Hc Htools Hsess) as [Hs Hout].
      destruct (IH (Host.step w st1 ev).1.1 (Host.step w st2 ev).1.1)
        as [IH1 IH2]; [now rewrite !step_tools | exact Hs |].
      split; [exact IH1|]. now rewrite !frames_to_app, Hout, IH2.
    + rewrite filter_cons_False by exact Hc. fold (events_of c rest).
      destruct (step_other st1 ev c Hc) as [Hs Hout].
      destruct (IH (Host.step w st1 ev).1.1 st2) as [IH1 IH2];
        [now rewrite step_tools | now rewrite Hs |].
      split; [exact IH1|]. now rewrite frames_to_app, Hout, IH2.
Qed.

(** In [src/mcp-host.py] there is one history for all connections: the
    user message of a frame, whatever connection it comes on, is appended
    to it. *)
Lemma root_history_shared (rw : Root.world) (st : Root.state) (c : nat)
  (raw : string) (data user_message : json) :
  c ∈ Root.clients st ->
  json_loads raw = Ok data ->
  Root.user_message_of data = Ok (Some user_message) ->
  exists rest,
    Root.messages_history (Root.step rw st (Frame c raw)).1
    = Root.messages_history st ++ Root.user user_message :: rest.
Proof.
  intros Hc Hraw Hdata. unfold Root.step.
  rewrite bool_decide_eq_true_2 by exact Hc.
  unfold Root.handle_message, Root.handle_data. rewrite Hraw, Hdata.
  assert (Hllm : forall h text, exists rest,
             (Root.use_llm rw (Root.available_tools st)
                (h ++ [Root.user user_message]) text).1
             = h ++ Root.user user_message :: rest).
  { intros h text. unfold Root.use_llm.
    destruct (Root.use_gemini rw);
      [eexists; cbn [fst]; rewrite <- app_assoc; reflexivity|].
    destruct (Root.ollama_chat rw _ _) as [e | status_code [b | e]];
      [|destruct (status_code =? 200)..]; eexists; cbn [fst];
      rewrite <- ?app_assoc; reflexivity. }
  destruct user_message as [ | | |text| | ];
    try (exists []; reflexivity).
  destruct (Root.check_and_use_tools rw (Root.available_tools st) text)
    as [[|ch r]|].
  - destruct (Hllm (Root.messages_history st) text) as [rest Hrest].
    exists rest. destruct (Root.use_llm _ _ _ _). exact Hrest.
  - eexists. cbn [Root.messages_history]. rewrite <- app_assoc. reflexivity.
  - destruct (Hllm (Root.messages_history st) text) as [rest Hrest].
    exists rest. destruct (Root.use_llm _ _ _ _). exact Hrest.
Qed.

(** C1. In [src/host/mcp-host.py] the history of a connection is a local
    of its handler.  An event of another connection leaves the history
    as it is and sends nothing on the connection; after any interleaving
    of events, the history of a connection and the frames it was sent are
    those of the run of its own events alone; the registry is never
    written.  In [src/mcp-host.py] the history is one list of the host:
    the user message of any connection is appended to it. *)
Theorem sessions_isolated (c : nat) :
  (forall st ev,
     conn_of ev <> c ->
     Host.sessions (Host.step w st ev).1.1 !! c = Host.sessions st !! c
     /\ frames_to c (Host.step w st ev).1.2 = [])
  /\ (forall st evs,
        Host.sessions (Host.run w st evs).1 !! c
        = Host.sessions (Host.run w st (events_of c evs)).1 !! c
        /\ frames_to c (Host.run w st evs).2
           = frames_to c (Host.run w st (events_of c evs)).2)
  /\ (forall st evs,
        Host.available_tools (Host.run w st evs).1
        = Host.available_tools st)
  /\ (forall (rw : Root.world) (st : Root.state) raw data user_message,
        c ∈ Root.clients st ->
        json_loads raw = Ok data ->
        Root.user_message_of data = Ok (Some user_message) ->
        exists rest,
          Root.messages_history (Root.step rw st (Frame c raw)).1
          = Root.messages_history st ++ Root.user user_message :: rest).
Proof.
  split; [intros st ev; apply step_other|].
  split; [intros st evs; now apply run_projection|].
  split; [intros st evs; apply run_tools|].
  intros rw st raw data user_message. apply root_history_shared.
Qed.

End Isolation.

Lemma sessions_isolated_witness :
  Host.sessions
    (@Host.step Fragment.runtime
       (host_world [product_server] "none" ReadTimeout)
       {| Host.available_tools := [];
          Host.sessions := {[ 1%nat := []; 2%nat := [Host.user "mine"] ]} |}
       (Frame 1 (user_frame "hello"))).1.1 !! 2%nat
  = Some [Host.user "mine"].
Proof.
  rewrite (proj1 (proj1 (@sessions_isolated Fragment.runtime
                           (host_world [product_server] "none" ReadTimeout)
                           2%nat) _ (Frame 1 (user_frame "hello"))
                   ltac:(discriminate))).
  reflexivity.
Defined.

(** In [src/mcp-host.py] the history is an attribute of the host: the
    message of connection 1 is in the history the host keeps for the turn
    of connection 2, and changes the answer sent on connection 2. *)
Lemma shared_history_not_isolated :
  frames_to 2%nat
    (@Root.run Fragment.runtime (root_world []) (Root.init (root_world []))
       [Connect 1; Connect 2; Frame 2 (user_frame "hello")]).2
  = [Root.Llm_response (JStr "hello") (JStr "answer to 1 messages")]
  /\ frames_to 2%nat
       (@Root.run Fragment.runtime (root_world []) (Root.init (root_world []))
          [Connect 1; Connect 2; Frame 1 (user_frame "my secret");
           Frame 2 (user_frame "hello")]).2
     = [Root.Llm_response (JStr "hello") (JStr "answer to 3 messages")]
  /\ Root.messages_history
       (@Root.run Fragment.runtime (root_world []) (Root.init (root_world []))
          [Connect 1; Connect 2; Frame 1 (user_frame "my secret");
           Frame 2 (user_frame "hello")]).1
     = [Root.user (JStr "my secret");
        Root.assistant (JStr "answer to 1 messages");
        Root.user (JStr "hello");
        Root.assistant (JStr "answer to 3 messages")]
  /\ frames_to 2%nat
       (@Root.run Fragment.runtime (root_world []) (Root.init (root_world []))
          [Connect 1; Connect 2; Frame 1 (user_frame "my secret");
           Frame 2 (user_frame "hello")]).2
     <> frames_to 2%nat
          (@Root.run Fragment.runtime (root_world [])
             (Root.init (root_world []))
             [Connect 1; Connect 2; Frame 2 (user_frame "hello")]).2.
Proof.
  split; [vm_compute; reflexivity|].
  split; [vm_compute; reflexivity|].
  split; [vm_compute; reflexivity|].
  vm_compute. discriminate.
Qed.

(* ================================================================== *)
(** * More on the event stream *)
(* ================================================================== *)

Section EventStreamLines.
Context {rt : PyRuntime}.

(** A line that lets the loop go on with the payload it had can be left
    out of the stream. *)
Lemma sse_loop_delete (line : string) :
  (forall st, exists st',
      Root.sse_line st line = Root.Continue st'
      /\ Root.products_data st' = Root.products_data st) ->
  forall before st rest broken,
    same_outcome (Root.sse_loop st (before ++ line :: rest) broken)
                 (Root.sse_loop st (before ++ rest) broken).
Proof.
  intros Hline. induction before as [|l before IH]; intros st rest broken.
  - simpl. destruct (Hline st) as (st' & -> & Hdata).
    now apply sse_loop_same_data.
  - simpl. destruct (Root.sse_line st l); [apply IH | |]; reflexivity.
Qed.

Lemma sse_line_close (st : Root.sse_state) (line : string) :
  is_close_line line = true ->
  Root.sse_line st line = Root.Break (Root.logged Root.SSE_stream_closed st).
Proof.
  unfold is_close_line, Root.sse_line.
  intros [Hd Hc]%andb_true_iff. apply negb_true_iff in Hd.
  now rewrite Hd, Hc.
Qed.

Lemma sse_line_other (st : Root.sse_state) (line : string) :
  is_other_line line = true -> Root.sse_line st line = Root.Continue st.
Proof.
  unfold is_other_line, Root.sse_line.
  intros [Hd Hc]%andb_true_iff. apply negb_true_iff in Hd, Hc.
  now rewrite Hd, Hc.
Qed.

(** X1. Once the closing line is read the stream is over: the lines after
    it, and a failure of the connection after it, change nothing. *)
Theorem close_line_ends_stream (close : string) :
  is_close_line close = true ->
  forall before st rest broken,
    Root.sse_loop st (before ++ close :: rest) broken
    = Root.sse_loop st (before ++ [close]) None.
Proof.
  intros Hclose. induction before as [|l before IH]; intros st rest broken.
  - simpl. now rewrite (sse_line_close st close Hclose).
  - simpl. destruct (Root.sse_line st l); [apply IH | |]; reflexivity.
Qed.

(** X2. Blank lines, comments and other fields of the event stream are
    skipped: with or without them the loop ends in the same state. *)
Theorem other_lines_skipped (line : string) :
  is_other_line line = true ->
  forall before st rest broken,
    Root.sse_loop st (before ++ line :: rest) broken
    = Root.sse_loop st (before ++ rest) broken.
Proof.
  intros Hline. induction before as [|l before IH]; intros st rest broken.
  - simpl. now rewrite (sse_line_other st line Hline).
  - simpl. destruct (Root.sse_line st l); [apply IH | |]; reflexivity.
Qed.

(** X3. A data line that holds an object without the key [result], an error
    event for one, leaves the payload received so far as it is: the
    stream ends as it does without the line. *)
Theorem event_without_result_keeps_payload (line : string)
  (d : list (string * json)) :
  Py.startswith "data: " line = true ->
  json_loads (Py.drop_chars 6 line) = Ok (JObj d) ->
  dict_get "result" d = None ->
  forall before st rest broken,
    same_outcome (Root.sse_loop st (before ++ line :: rest) broken)
                 (Root.sse_loop st (before ++ rest) broken).
Proof.
  intros Hp Hj Hr. apply sse_loop_delete. intros st.
  unfold Root.sse_line. rewrite Hp, Hj. cbn [py_in py_index]. rewrite Hr.
  destruct (dict_get "error" d) as [err|]; eexists; split; reflexivity.
Qed.

(** X4. A data line whose JSON is [null], a boolean or a number makes the
    loop raise, whatever was received before, unless the stream was
    closed before the line; the run of the tool gives no reply then. *)
Theorem scalar_payload_aborts (bad : string) (v : json) :
  Py.startswith "data: " bad = true ->
  json_loads (Py.drop_chars 6 bad) = Ok v ->
  is_scalar v = true ->
  forall before rest broken,
    Forall (fun l => is_close_line l = false) before ->
    (forall st, exists e,
        Root.sse_loop st (before ++ bad :: rest) broken = Raise e)
    /\ (forall w tools message s servers,
          Root.tool_servers w = s :: servers ->
          Root.run_stream w (srv_url s +:+ "/run")
          = Root.RunStream 200 (before ++ bad :: rest) broken ->
          Root.check_and_use_tools w tools message = None).
Proof.
  intros Hp Hj Hv before rest broken Hbefore.
  assert (Hbad : forall st, Root.sse_line st bad = Root.Raised TypeError).
  { intros st. unfold Root.sse_line. rewrite Hp, Hj. now destruct v. }
  assert (Hloop : forall st, exists e,
             Root.sse_loop st (before ++ bad :: rest) broken = Raise e).
  { induction Hbefore as [|l before Hl _ IH]; intros st; simpl.
    - rewrite Hbad. now exists TypeError.
    - destruct (Root.sse_line st l) as [st1|st1|e] eqn:Hline.
      + apply IH.
      + apply sse_line_break in Hline as (Hd & Hc & _).
        unfold is_close_line in Hl. now rewrite Hd, Hc in Hl.
      + now exists e. }
  split; [exact Hloop|].
  intros w tools message s servers Hservers Hrun.
  unfold Root.check_and_use_tools, Root.use_get_products.
  rewrite Hservers, Hrun. destruct (Hloop Root.sse_init) as [e ->].
  now destruct (Root.selected_tool tools message).
Qed.

End EventStreamLines.

Lemma event_without_result_keeps_payload_witness :
  same_outcome
    (@Root.sse_loop Fragment.runtime Root.sse_init
       [result_1;
        data_line ("{" +:+ Py.dq +:+ "error" +:+ Py.dq +:+ ": 0}");
        "event: close"] None)
    (@Root.sse_loop Fragment.runtime Root.sse_init
       [result_1; "event: close"] None).
Proof.
  exact (@event_without_result_keeps_payload Fragment.runtime
           (data_line ("{" +:+ Py.dq +:+ "error" +:+ Py.dq +:+ ": 0}"))
           [("error", JNum 0)] eq_refl eq_refl eq_refl
           [result_1] Root.sse_init ["event: close"] None).
Defined.

Lemma close_line_ends_stream_witness :
  @Root.sse_loop Fragment.runtime Root.sse_init
    [result_1; "event: close"; data_line "{}"; EmptyString]
    (Some (Httpx ReadError "reset"))
  = @Root.sse_loop Fragment.runtime Root.sse_init
      [result_1; "event: close"] None.
Proof.
  exact (@close_line_ends_stream Fragment.runtime "event: close" eq_refl
           [result_1] Root.sse_init [data_line "{}"; EmptyString]
           (Some (Httpx ReadError "reset"))).
Defined.

Lemma other_lines_skipped_witness :
  @Root.sse_loop Fragment.runtime Root.sse_init
    [": keep-alive"; result_1; "event: close"] None
  = @Root.sse_loop Fragment.runtime Root.sse_init
      [result_1; "event: close"] None.
Proof.
  exact (@other_lines_skipped Fragment.runtime ": keep-alive" eq_refl
           [] Root.sse_init [result_1; "event: close"] None).
Defined.

Lemma scalar_payload_aborts_witness :
  @Root.check_and_use_tools Fragment.runtime
    (root_world [result_1; data_line "5"; "event: close"])
    (Root.discover_tools
       (root_world [result_1; data_line "5"; "event: close"]))
    "show products" = None.
Proof.
  refine (proj2 (@scalar_payload_aborts Fragment.runtime (data_line "5")
                   (JNum 5) eq_refl eq_refl eq_refl [result_1]
                   ["event: close"] None _) _ _ _ product_server [] _ _);
    [repeat constructor | reflexivity | reflexivity].
Defined.

(* ================================================================== *)
(** * More on the replies of [src/mcp-host.py] *)
(* ================================================================== *)

Section RootReplies.
Context {rt : PyRuntime}.

Lemma enumerate_products_extends (products : list json) :
  forall i response_text r,
    Root.enumerate_products i products response_text = Ok r ->
    exists rest, r = response_text +:+ rest.
Proof.
  induction products as [|p products IH]; intros i response_text r; simpl.
  - intros [= <-]. exists EmptyString. now rewrite append_nil_r.
  - destruct (Root.product_entry i p) as [entry|e]; [|discriminate].
    intros H. apply IH in H as [rest ->].
    exists (entry +:+ rest). now rewrite append_assoc.
Qed.

Lemma enumerate_products_ok (products : list json) :
  forall i response_text,
    (exists r, Root.enumerate_products i products response_text = Ok r)
    <-> Forall (fun p => is_object p = true) products.
Proof.
  induction products as [|p products IH]; intros i response_text; simpl.
  - split; [constructor | now eexists].
  - destruct p as [ | | | | |d]; simpl;
      try (split; [intros [r H]; discriminate
                  | intros H; inversion H; discriminate]).
    rewrite IH. split; [now constructor | intros H; now inversion H].
Qed.

Lemma format_products_header (products_data : json) (r : string) :
  Root.format_products products_data = Ok r ->
  py_truth products_data = true ->
  exists rest, r = Root.found_header +:+ rest.
Proof.
  unfold Root.format_products. destruct products_data as [ | | | |l|d];
    try (intros [= <-] _; eexists; reflexivity).
  destruct (Root.enumerate_products 1 (take 10 l) Root.found_header)
    as [text|e] eqn:Henum; cbn [mbind res_bind]; [|discriminate].
  apply enumerate_products_extends in Henum as [rest ->].
  destruct (10 <? length l)%nat.
  - intros [= <-] _. eexists. now rewrite append_assoc.
  - destruct l; [discriminate|]. cbn [length Nat.eqb].
    intros [= <-] _. now exists rest.
Qed.

(** X5. Every reply of [check_and_use_tools] starts with the header
    [Here are the products I found:]; the reply [No products were found.]
    is never made, and no reply is empty. *)
Theorem tool_reply_starts_with_header (w : Root.world) (tools : list tool)
  (message r : string) :
  Root.check_and_use_tools w tools message = Some r ->
  (exists rest, r = Root.found_header +:+ rest)
  /\ r <> "No products were found."
  /\ r <> EmptyString.
Proof.
  intros Hr.
  assert (H : exists rest, r = Root.found_header +:+ rest).
  { unfold Root.check_and_use_tools, Root.use_get_products in Hr.
    destruct (Root.selected_tool tools message); [|discriminate].
    destruct (Root.tool_servers w) as [|s servers]; [discriminate|].
    destruct (Root.run_stream w _) as [e|status_code lines broken];
      [discriminate|].
    destruct (status_code =? 200); [|discriminate].
    destruct (Root.sse_loop Root.sse_init lines broken) as [st|e];
      [|discriminate].
    unfold Root.after_stream in Hr.
    destruct (py_truth (Root.products_data st)) eqn:Htruth; [|discriminate].
    destruct (Root.format_products (Root.products_data st)) as [text|e]
      eqn:Hformat; [|discriminate].
    injection Hr as <-. eapply format_products_header; eassumption. }
  split; [exact H|]. destruct H as [rest ->]. split; discriminate.
Qed.

Lemma some_item_not_object (l : list json) :
  Forall (fun p => is_object p = true) l
  \/ Exists (fun p => is_object p = false) l.
Proof.
  induction l as [|p l [IH|IH]].
  - left. constructor.
  - destruct (is_object p) eqn:Hp.
    + left. now constructor.
    + right. now constructor.
  - right. now constructor 2.
Qed.

(** X6. A list of products gives no reply exactly when it is empty or one of
    its first ten items is not an object; what comes after the tenth item
    is not looked at. *)
Theorem list_without_reply (l : list json) :
  Root.after_stream (JList l) = None
  <-> l = [] \/ Exists (fun p => is_object p = false) (take 10 l).
Proof.
  unfold Root.after_stream. destruct l as [|p l]; [tauto|].
  cbn [py_truth]. unfold Root.format_products.
  pose proof (enumerate_products_ok (take 10 (p :: l)) 1 Root.found_header)
    as Hok.
  destruct (Root.enumerate_products 1 (take 10 (p :: l)) Root.found_header)
    as [text|e]; cbn [mbind res_bind].
  - assert (Hall : Forall (fun p => is_object p = true) (take 10 (p :: l)))
      by (apply Hok; eauto).
    split.
    + destruct (10 <? length (p :: l))%nat; [discriminate|].
      cbn [length Nat.eqb]. discriminate.
    + intros [H | H]; [discriminate|].
      apply Exists_exists in H as (x & Hin & Hx).
      rewrite Forall_forall in Hall. apply Hall in Hin. congruence.
  - split; [intros _ | reflexivity]. right.
    destruct (some_item_not_object (take 10 (p :: l))) as [Hall|Hex];
      [|exact Hex].
    destruct (proj2 Hok Hall) as [r Hr]. discriminate.
Qed.

(** X7. Every frame the host receives is answered by one frame. *)
Theorem one_frame_per_message (w : Root.world) (tools : list tool)
  (h : list Root.message) (raw : string) :
  length (Root.handle_message w tools h raw).2 = 1%nat.
Proof.
  unfold Root.handle_message, Root.handle_data.
  destruct (json_loads raw) as [data|e]; [|reflexivity].
  destruct (Root.user_message_of data) as [[um|]|e]; try reflexivity.
  assert (Hllm : forall h' text,
             length (Root.use_llm w tools h' text).2 = 1%nat).
  { intros h' text. unfold Root.use_llm.
    destruct (Root.use_gemini w); [reflexivity|].
    destruct (Root.ollama_chat w h' tools) as [e|status_code [c|e]];
      [|destruct (status_code =? 200)..]; reflexivity. }
  destruct um; try reflexivity.
  destruct (Root.check_and_use_tools w tools s) as [[|c r]|];
    try reflexivity; apply Hllm.
Qed.

Lemma handle_message_extends (w : Root.world) (tools : list tool)
  (h : list Root.message) (raw : string) :
  exists rest, (Root.handle_message w tools h raw).1 = h ++ rest.
Proof.
  assert (Hnil : h = h ++ []) by now rewrite app_nil_r.
  unfold Root.handle_message, Root.handle_data.
  destruct (json_loads raw) as [data|e]; [|now exists []].
  destruct (Root.user_message_of data) as [[um|]|e]; try now exists [].
  assert (Hllm : forall text, exists rest,
             (Root.use_llm w tools (h ++ [Root.user um]) text).1 = h ++ rest).
  { intros text. unfold Root.use_llm.
    destruct (Root.use_gemini w);
      [eexists; cbn [fst]; now rewrite <- app_assoc|].
    destruct (Root.ollama_chat w _ tools) as [e|status_code [c|e]];
      [|destruct (status_code =? 200)..]; eexists; cbn [fst];
      rewrite <- ?app_assoc; reflexivity. }
  destruct um; try (eexists; reflexivity).
  destruct (Root.check_and_use_tools w tools s) as [[|c r]|];
    try apply Hllm.
  eexists. cbn [fst]. now rewrite <- app_assoc.
Qed.

(** X8. The history of the host only grows: no frame, of whatever
    connection, and no connection that opens or closes removes or changes
    a message that is in it. *)
Theorem history_only_grows (w : Root.world) (evs : list event) :
  forall st, exists rest,
    Root.messages_history (Root.run w st evs).1
    = Root.messages_history st ++ rest.
Proof.
  induction evs as [|ev evs IH]; intros st.
  - exists []. simpl. now rewrite app_nil_r.
  - simpl. destruct (Root.step w st ev) as [st1 out1] eqn:Hstep.
    destruct (IH st1) as [rest2 Hrest2].
    destruct (Root.run w st1 evs) as [st2 out2]. cbn [fst] in *.
    assert (H1 : exists rest1,
               Root.messages_history st1 = Root.messages_history st ++ rest1).
    { destruct ev as [c|c raw|c]; simpl in Hstep.
      - injection Hstep as <- _. exists []. simpl. now rewrite app_nil_r.
      - destruct (bool_decide (c ∈ Root.clients st)).
        + destruct (handle_message_extends w (Root.available_tools st)
                      (Root.messages_history st) raw) as [rest Hrest].
          destruct (Root.handle_message w _ _ raw) as [h out].
          injection Hstep as <- _. now exists rest.
        + injection Hstep as <- _. exists []. now rewrite app_nil_r.
      - injection Hstep as <- _. exists []. simpl. now rewrite app_nil_r. }
    destruct H1 as [rest1 H1]. exists (rest1 ++ rest2).
    now rewrite Hrest2, H1, app_assoc.
Qed.

Lemma bool_decide_is_Some {A : Type} (o : option A) :
  bool_decide (is_Some o) = match o with Some _ => true | None => false end.
Proof.
  destruct o.
  - apply bool_decide_eq_true_2. now eexists.
  - apply bool_decide_eq_false_2. intros [x Hx]. discriminate.
Qed.

(** X9. How a decoded object is read.  A frame of type [user_message]
    without [content] is answered by an error, also when it has a key
    [message]; a frame of another type, or without type, with a key
    [message] is handled as the user message it holds; a frame of another
    type without [message], such as [clear_history], is answered by
    [Unknown message format] and changes nothing. *)
Theorem frame_decoding (w : Root.world) (tools : list tool)
  (h : list Root.message) (d : list (string * json)) :
  (has_type "user_message" d = true ->
   dict_get "content" d = None ->
   Root.handle_data w tools h (JObj d)
   = (h, [Root.Error_frame
            (Root.Error_processing_message (KeyError "content"))]))
  /\ (forall m,
        has_type "user_message" d = false ->
        dict_get "message" d = Some m ->
        Root.handle_data w tools h (JObj d)
        = Root.handle_data w tools h
            (JObj [("type", JStr "user_message"); ("content", m)]))
  /\ (has_type "user_message" d = false ->
      dict_get "message" d = None ->
      Root.handle_data w tools h (JObj d)
      = (h, [Root.Error_frame Root.Unknown_message_format])).
Proof.
  unfold has_type, Root.handle_data, Root.user_message_of.
  cbn [py_in py_index]. rewrite !bool_decide_is_Some.
  unfold mbind, res_bind.
  split; [|split].
  - intros Ht ->. destruct (dict_get "type" d) as [t|]; [|discriminate].
    now rewrite Ht.
  - intros m Ht ->. destruct (dict_get "type" d) as [t|]; [|reflexivity].
    now rewrite Ht.
  - intros Ht ->. destruct (dict_get "type" d) as [t|]; [|reflexivity].
    now rewrite Ht.
Qed.

End RootReplies.

Lemma tool_reply_starts_with_header_witness :
  @Root.check_and_use_tools Fragment.runtime
    (root_world [widget_line; EmptyString; "event: close"])
    (Root.discover_tools
       (root_world [widget_line; EmptyString; "event: close"]))
    "show products"
  = Some (Root.found_header +:+ "1. Widget by Acme" +:+ Py.nl +:+ Py.nl)
  /\ Root.found_header +:+ "1. Widget by Acme" +:+ Py.nl +:+ Py.nl
     <> "No products were found.".
Proof.
  split; [reflexivity|].
  exact (proj1 (proj2 (@tool_reply_starts_with_header Fragment.runtime
    (root_world [widget_line; EmptyString; "event: close"])
    (Root.discover_tools
       (root_world [widget_line; EmptyString; "event: close"]))
    "show products" _ eq_refl))).
Defined.

Lemma frame_decoding_witness :
  @Root.handle_data Fragment.runtime (root_world []) [] []
    Client.clear_history
  = ([], [Root.Error_frame Root.Unknown_message_format]).
Proof.
  exact (proj2 (proj2 (@frame_decoding Fragment.runtime (root_world []) []
                         [] [("type", JStr "clear_history")]))
           eq_refl eq_refl).
Defined.

(* ================================================================== *)
(** * More on the session of [src/host/mcp-host.py] *)
(* ================================================================== *)

Section HostTurns.
Context {rt : PyRuntime}.
Variables (w : Host.world) (tools : list tool).

(** X10. The frames that are not handled: a frame that does not decode, a
    value that is not an object, an object whose type is neither
    [user_message] nor [clear_history], a user message whose content is
    not a string.  Nothing is sent for them, the history stays as it is
    and nothing is asked from the outside. *)
Theorem bad_frames_ignored (h : list Host.message) :
  (forall raw e, json_loads raw = Raise e ->
     Host.handle_message w tools h raw = Host.ignored h)
  /\ (forall data, is_object data = false ->
        Host.handle_data w tools h data = Host.ignored h)
  /\ (forall d,
        has_type "user_message" d = false ->
        has_type "clear_history" d = false ->
        Host.handle_data w tools h (JObj d) = Host.ignored h)
  /\ (forall d v,
        has_type "user_message" d = true ->
        dict_get "content" d = Some v ->
        (forall c, v <> JStr c) ->
        Host.handle_data w tools h (JObj d) = Host.ignored h).
Proof.
  split; [|split; [|split]].
  - intros raw e Hraw. unfold Host.handle_message. now rewrite Hraw.
  - intros data Hdata. now destruct data.
  - unfold has_type, Host.handle_data. intros d Hu Hc.
    destruct (dict_get "type" d) as [t|]; [|reflexivity].
    cbn [default id]. now rewrite Hu, Hc.
  - unfold has_type, Host.handle_data. intros d v Hu Hv Hnot.
    destruct (dict_get "type" d) as [t|]; [|discriminate].
    cbn [default id]. rewrite Hu, Hv. cbn [default id].
    destruct v; try reflexivity. now destruct (Hnot s).
Qed.

Lemma formatted_history_single (content : string) :
  Host.formatted_history [Host.user content] = "USER: " +:+ content.
Proof.
  change (Host.formatted_history [Host.user content])
    with (Host.role_line (Host.user content)).
  apply role_line_user.
Qed.

(** X11. [clear_history] empties the history and is acknowledged; the prompt
    of the next turn that goes to the completion backend holds the new
    message only. *)
Theorem clear_history_forgets (h : list Host.message)
  (d : list (string * json)) :
  has_type "clear_history" d = true ->
  Host.handle_data w tools h (JObj d)
  = {| Host.history := []; Host.sent := [Host.History_cleared];
       Host.calls := [] |}
  /\ forall content,
       (Host.check_and_use_tools w tools content).1 = None ->
       last (Host.calls
               (Host.user_turn w tools
                  (Host.history (Host.handle_data w tools h (JObj d)))
                  content))
       = Some (Host.Query_gemini ("USER: " +:+ content)).
Proof.
  unfold has_type. intros Ht.
  assert (Hclear : Host.handle_data w tools h (JObj d)
                   = {| Host.history := []; Host.sent := [Host.History_cleared];
                        Host.calls := [] |}).
  { unfold Host.handle_data.
    destruct (dict_get "type" d) as [t|]; [|discriminate]. cbn [default id].
    rewrite Ht. destruct t; try discriminate. cbn [is_str] in *.
    apply String.eqb_eq in Ht as <-. reflexivity. }
  split; [exact Hclear|]. intros content Hnone. rewrite Hclear.
  cbn [Host.history]. unfold Host.user_turn. cbn [app].
  destruct (Host.check_and_use_tools w tools content) as [r made].
  simpl in Hnone. subst r. cbn [Host.calls].
  now rewrite last_snoc, formatted_history_single.
Qed.

(** X12. A turn answers the user message with one frame and adds the message
    and the answer to the history.  It asks the backend which tool to
    use, makes at most one request to a tool, and asks the backend for a
    completion only when no tool gave a content. *)
Theorem turn_shape (h : list Host.message) (content : string) :
  exists r,
    Host.sent (Host.user_turn w tools h content)
    = [Host.Llm_response content r]
    /\ Host.history (Host.user_turn w tools h content)
       = h ++ [Host.user content; Host.assistant r]
    /\ (Host.calls (Host.user_turn w tools h content)
        = [Host.Query_gemini (Host.tool_selection_prompt tools content);
           Host.Query_gemini
             (Host.formatted_history (h ++ [Host.user content]))]
        \/ (exists t u,
              Host.selected_tool tools
                (Host.query_gemini w
                   (Host.tool_selection_prompt tools content)) = Some t
              /\ url t = Some u
              /\ Host.calls (Host.user_turn w tools h content)
                 = [Host.Query_gemini
                      (Host.tool_selection_prompt tools content);
                    Host.Http_get u]
              /\ r = Host.use_tool w (name t) u)
        \/ (exists t u,
              Host.selected_tool tools
                (Host.query_gemini w
                   (Host.tool_selection_prompt tools content)) = Some t
              /\ url t = Some u
              /\ Host.calls (Host.user_turn w tools h content)
                 = [Host.Query_gemini
                      (Host.tool_selection_prompt tools content);
                    Host.Http_get u;
                    Host.Query_gemini
                      (Host.formatted_history (h ++ [Host.user content]))]
              /\ Host.http_get w u
                 = Host.GetStatus 200 (Host.Formatted_content EmptyString))).
Proof.
  unfold Host.user_turn, Host.check_and_use_tools.
  destruct (Host.selected_tool tools _) as [t|] eqn:Hsel;
    [destruct (url t) as [u|] eqn:Hu|].
  - destruct (Host.use_tool w (name t) u) as [|c r] eqn:Huse.
    + eexists. cbn [Host.sent Host.history Host.calls app].
      split; [reflexivity|]. split; [now rewrite <- app_assoc|].
      right. right. exists t, u. repeat split; try reflexivity; try easy.
      unfold Host.use_tool in Huse.
      destruct (Host.http_get w u) as [c msg|status_code body].
      * destruct c as [c|]; [destruct c|]; discriminate.
      * destruct (status_code =? 200) eqn:Hs; [|discriminate].
        apply Z.eqb_eq in Hs as ->.
        destruct body; try discriminate. now subst.
    + exists (String c r). cbn [Host.sent Host.history Host.calls].
      split; [reflexivity|]. split; [now rewrite <- app_assoc|].
      right. left. exists t, u. repeat split; easy.
  - eexists. cbn [Host.sent Host.history Host.calls app].
    split; [reflexivity|]. split; [now rewrite <- app_assoc|]. now left.
  - eexists. cbn [Host.sent Host.history Host.calls app].
    split; [reflexivity|]. split; [now rewrite <- app_assoc|]. now left.
Qed.

End HostTurns.

Lemma clear_history_forgets_witness :
  Host.handle_data
    (host_world [product_server] "none" ReadTimeout) []
    [Host.user "old"; Host.assistant "older"] Client.clear_history
  = {| Host.history := []; Host.sent := [Host.History_cleared];
       Host.calls := [] |}.
Proof.
  exact (proj1 (clear_history_forgets
                  (host_world [product_server] "none" ReadTimeout) []
                  [Host.user "old"; Host.assistant "older"]
                  [("type", JStr "clear_history")] eq_refl)).
Defined.

Section HostFailures.
Variable w : Host.world.

(** X13. When the request to a tool fails, by an exception, by a status other
    than 200 or by a body that does not decode, the reply names the tool;
    it is not empty, so that it is sent as the answer of the turn. *)
Theorem failure_reply_names_tool (tool_name tool_url : string) :
  request_fails (Host.http_get w tool_url) = true ->
  (exists a b, Host.use_tool w tool_name tool_url = a +:+ tool_name +:+ b)
  /\ Host.use_tool w tool_name tool_url <> EmptyString.
Proof.
  unfold request_fails, Host.use_tool.
  destruct (Host.http_get w tool_url) as [c msg|status_code body].
  - intros _. unfold Host.on_exception.
    destruct c as [c|];
      [destruct (is_RequestError c); [|destruct (is_TimeoutException c)]|].
    + split; [|discriminate]. eexists _, _.
      unfold Host.connection_error_reply. reflexivity.
    + split; [|discriminate]. eexists _, _.
      unfold Host.timeout_reply. reflexivity.
    + split; [|discriminate]. eexists _, _.
      unfold Host.exception_reply. reflexivity.
    + split; [|discriminate]. eexists _, _.
      unfold Host.exception_reply. reflexivity.
  - destruct (status_code =? 200); cbn [negb orb].
    + destruct body; try discriminate. intros _.
      split; [|discriminate]. eexists _, _.
      unfold Host.exception_reply. reflexivity.
    + intros _. split; [|discriminate]. eexists _, _.
      unfold Host.http_error_reply. reflexivity.
Qed.

End HostFailures.

Lemma failure_reply_names_tool_witness :
  exists a b,
    Host.use_tool
      (host_world_with [product_server] "get_products"
         (Host.GetStatus 503 (Host.Legacy "{}")))
      "get_products" "http://localhost:5001/products"
    = a +:+ "get_products" +:+ b.
Proof.
  exact (proj1 (failure_reply_names_tool
                  (host_world_with [product_server] "get_products"
                     (Host.GetStatus 503 (Host.Legacy "{}")))
                  "get_products" "http://localhost:5001/products" eq_refl)).
Defined.

Section HostHistory.
Context {rt : PyRuntime}.
Variable w : Host.world.

Lemma whole_turns_nil : whole_turns [].
Proof. exists []. split; [reflexivity | constructor]. Qed.

Lemma whole_turns_snoc (h : list Host.message) (content r : string) :
  whole_turns h -> kept_content content ->
  whole_turns (h ++ [Host.user content; Host.assistant r]).
Proof.
  intros (turns & -> & Hall) Hkept. exists (turns ++ [(content, r)]).
  split.
  - unfold history_of_turns. rewrite fmap_app, concat_app. simpl.
    reflexivity.
  - apply Forall_app. split; [exact Hall|].
    constructor; [exact Hkept | constructor].
Qed.

Lemma handle_message_whole_turns (tools : list tool)
  (h : list Host.message) (raw : string) :
  whole_turns h ->
  whole_turns (Host.history (Host.handle_message w tools h raw)).
Proof.
  intros Hh. unfold Host.handle_message, Host.handle_data.
  destruct (json_loads raw) as [[ | | | | |d]|e]; try exact Hh.
  destruct (is_str "user_message" _).
  - destruct (default (JStr EmptyString) (dict_get "content" d));
      try exact Hh.
    destruct (Py.nonempty (Py.strip s)) eqn:Hne; [|exact Hh].
    destruct (turn_shape w tools h (Py.strip s)) as (r & _ & -> & _).
    apply whole_turns_snoc; [exact Hh|]. split; [apply strip_idem|].
    intros E. now rewrite E in Hne.
  - destruct (is_str "clear_history" _); [apply whole_turns_nil | exact Hh].
Qed.

(** X14. The history of every connection is, at any time, a sequence of whole
    turns, a user message followed by its answer, and every user message
    in it is stripped and not empty. *)
Theorem history_is_whole_turns (evs : list event) (c : nat)
  (h : list Host.message) :
  Host.sessions (Host.run w (Host.init w) evs).1 !! c = Some h ->
  exists turns,
    h = history_of_turns turns
    /\ Forall (fun turn => kept_content turn.1) turns.
Proof.
  enough (Hinv : forall evs st,
             (forall c h, Host.sessions st !! c = Some h -> whole_turns h) ->
             forall c h, Host.sessions (Host.run w st evs).1 !! c = Some h ->
                         whole_turns h).
  { apply Hinv. intros c' h' H. unfold Host.init in H. simpl in H.
    now rewrite lookup_empty in H. }
  clear evs c h. induction evs as [|ev evs IH]; intros st Hst; [exact Hst|].
  rewrite run_cons. cbn [fst]. apply IH. intros c h.
  destruct ev as [d|d raw|d]; simpl.
  - destruct (decide (d = c)) as [->|Hne].
    + rewrite lookup_insert_eq. intros [= <-]. apply whole_turns_nil.
    + rewrite lookup_insert_ne by exact Hne. apply Hst.
  - destruct (Host.sessions st !! d) as [hd|] eqn:Hd; simpl; [|apply Hst].
    destruct (decide (d = c)) as [->|Hne].
    + rewrite lookup_insert_eq. intros [= <-].
      apply handle_message_whole_turns. eapply Hst, Hd.
    + rewrite lookup_insert_ne by exact Hne. apply Hst.
  - destruct (decide (d = c)) as [->|Hne].
    + now rewrite lookup_delete_eq.
    + rewrite lookup_delete_ne by exact Hne. apply Hst.
Qed.

End HostHistory.

Lemma history_is_whole_turns_witness :
  exists turns,
    [Host.user "hi"; Host.assistant "none"] = history_of_turns turns
    /\ Forall (fun turn => kept_content turn.1) turns.
Proof.
  exact (@history_is_whole_turns Fragment.runtime
           (host_world [product_server] "none" ReadTimeout)
           [Connect 1; Frame 1 (user_frame "  hi ")] 1%nat
           [Host.user "hi"; Host.assistant "none"]
           ltac:(vm_compute; reflexivity)).
Defined.

(* ================================================================== *)
(** * More on discovery *)
(* ================================================================== *)

Section Discovery.
Context {rt : PyRuntime}.

(** X15. In [src/mcp-host.py], a server whose discovery call raises, answers
    with another status than 200, or sends a body that does not decode,
    adds nothing: the registry is the one of the configuration without
    that server. *)
Theorem root_failing_server_adds_nothing (w : Root.world) (s : server) :
  discovery_fails (Root.requests_get w (srv_url s +:+ "/tools")) = true ->
  forall before after,
    Root.discover_tools (root_with_servers w (before ++ s :: after))
    = Root.discover_tools (root_with_servers w (before ++ after)).
Proof.
  intros Hfail before after. rewrite !root_discover_concat.
  cbn [root_with_servers Root.tool_servers].
  rewrite !fmap_app, !concat_app. cbn [fmap list_fmap concat].
  assert (Hs : root_server_tools (root_with_servers w (before ++ s :: after)) s
               = []).
  { unfold root_server_tools, Root.discover_server.
    cbn [root_with_servers Root.requests_get].
    destruct (Root.requests_get w _) as [e|status_code [ts|e]];
      try reflexivity.
    - cbn in Hfail. rewrite orb_false_r in Hfail.
      apply negb_true_iff in Hfail. now rewrite Hfail.
    - now destruct (status_code =? 200). }
  rewrite Hs. reflexivity.
Qed.

(** X16. In [src/host/mcp-host.py], the same holds for a server whose name
    holds none of the keywords. *)
Theorem host_failing_server_adds_nothing (w : Host.world) (s : server) :
  is_static_server s = false ->
  discovery_fails (Host.requests_get w (srv_url s +:+ "/tools")) = true ->
  forall before after,
    Host.discover_tools (host_with_servers w (before ++ s :: after))
    = Host.discover_tools (host_with_servers w (before ++ after)).
Proof.
  intros Hstatic Hfail before after. rewrite !host_discover_concat.
  cbn [host_with_servers Host.tool_servers].
  rewrite !fmap_app, !concat_app. cbn [fmap list_fmap concat].
  assert (Hs : Host.server_tools (host_with_servers w (before ++ s :: after)) s
               = []).
  { unfold Host.server_tools. unfold is_static_server in Hstatic.
    apply orb_false_iff in Hstatic as [Hstatic Ha].
    apply orb_false_iff in Hstatic as [He Hp]. rewrite He, Hp, Ha.
    cbn [host_with_servers Host.requests_get].
    destruct (Host.requests_get w _) as [e|status_code [ts|e]];
      try reflexivity.
    - cbn in Hfail. rewrite orb_false_r in Hfail.
      apply negb_true_iff in Hfail. now rewrite Hfail.
    - now destruct (status_code =? 200). }
  rewrite Hs. reflexivity.
Qed.

(** X17. In [src/host/mcp-host.py], a server whose name holds a keyword is
    never asked for its tools: it gets one descriptor, whose address is
    the address of the server followed by its path, whatever the server
    answers, and also when the server is down. *)
Theorem static_descriptor_without_discovery (w w' : Host.world) (s : server) :
  is_static_server s = true ->
  Host.server_tools w s = Host.server_tools w' s
  /\ exists t,
       Host.server_tools w s = [t]
       /\ url t = Some (srv_url s +:+ default EmptyString (srv_path s))
       /\ In (name t) ["get_eagle_feeds"; "get_products"; "get_analytics"].
Proof.
  unfold is_static_server, Host.server_tools. intros Hs.
  destruct (Py.contains "eagle" _);
    [|destruct (Py.contains "product" _);
      [|destruct (Py.contains "analytics" _); [|discriminate]]];
    (split; [reflexivity|]); eexists; (split; [reflexivity|]);
    (split; [reflexivity|]); simpl; auto.
Qed.

End Discovery.

Lemma root_failing_server_adds_nothing_witness :
  Root.discover_tools
    (root_with_servers dead_root_world [plain_server])
  = [].
Proof.
  exact (root_failing_server_adds_nothing dead_root_world plain_server
           eq_refl [] []).
Defined.

Lemma host_failing_server_adds_nothing_witness :
  Host.discover_tools
    (host_with_servers (host_world [] "none" ReadTimeout)
       [product_server; plain_server])
  = Host.discover_tools
      (host_with_servers (host_world [] "none" ReadTimeout) [product_server]).
Proof.
  exact (host_failing_server_adds_nothing
           (host_world [] "none" ReadTimeout) plain_server eq_refl eq_refl
           [product_server] []).
Defined.

Lemma static_descriptor_without_discovery_witness :
  Host.server_tools (host_world [] "none" ReadTimeout) product_mirror
  = Host.server_tools
      (host_world_with [] "none" (Host.GetStatus 200 (Host.Legacy "{}")))
      product_mirror.
Proof.
  exact (proj1 (static_descriptor_without_discovery
                  (host_world [] "none" ReadTimeout)
                  (host_world_with [] "none"
                     (Host.GetStatus 200 (Host.Legacy "{}")))
                  product_mirror eq_refl)).
Defined.


(* ================================================================== *)
(** * The two parts of a turn of [src/mcp-host.py] *)
(* ================================================================== *)

Section RootTurn.
Context {rt : PyRuntime}.
Variables (w : Root.world) (tools : list tool).

(** The turn that nothing interrupts is made of its two parts, one
    right after the other. *)
Lemma handle_data_two_parts (h : list Root.message) (data : json) :
  Root.handle_data w tools h data
  = match Root.begin_turn h data with
    | Root.Answered h' out => (h', out)
    | Root.Checking h' text => Root.finish_turn w tools h' text
    end.
Proof.
  unfold Root.handle_data, Root.begin_turn, Root.finish_turn.
  destruct (Root.user_message_of data) as [[um|]|e]; try reflexivity.
  now destruct um.
Qed.

Lemma use_llm_appends (now : list Root.message) (text : string) :
  exists rest,
    (Root.use_llm w tools now text).1 = now ++ rest
    /\ (length rest <= 1)%nat
    /\ length (Root.use_llm w tools now text).2 = 1%nat.
Proof.
  unfold Root.use_llm. destruct (Root.use_gemini w).
  - eexists [_]. cbn. auto.
  - destruct (Root.ollama_chat w now tools) as [e|status_code [c|e]];
      [|destruct (status_code =? 200)..];
      first [ now (eexists [_]; cbn; auto)
            | exists []; cbn; rewrite app_nil_r; auto ].
Qed.

(** X25. A turn of [src/mcp-host.py] in two parts, before and after the
    awaited check of the tools.  The first part answers the frame at once
    with one error frame, or appends the user message and starts the
    check.  The second part, whatever the shared history has become
    meanwhile, only appends to it, at most one message, and sends one
    frame.  The turn that nothing interrupts is the two parts one after
    the other. *)
Theorem turn_in_two_parts (h : list Root.message) (data : json) :
  Root.handle_data w tools h data
  = match Root.begin_turn h data with
    | Root.Answered h' out => (h', out)
    | Root.Checking h' text => Root.finish_turn w tools h' text
    end
  /\ (forall h' out,
        Root.begin_turn h data = Root.Answered h' out ->
        (exists rest, h' = h ++ rest)
        /\ exists e, out = [Root.Error_frame e])
  /\ (forall h' text,
        Root.begin_turn h data = Root.Checking h' text ->
        h' = h ++ [Root.user (JStr text)])
  /\ (forall now text,
        exists rest,
          (Root.finish_turn w tools now text).1 = now ++ rest
          /\ (length rest <= 1)%nat
          /\ length (Root.finish_turn w tools now text).2 = 1%nat).
Proof.
  split; [apply handle_data_two_parts|]. split; [|split].
  - intros h' out. unfold Root.begin_turn.
    destruct (Root.user_message_of data) as [[um|]|e].
    + destruct um; intros [= <- <-];
        (split; [now eexists | now eexists]).
    + intros [= <- <-]. split; [exists []; now rewrite app_nil_r | now eexists].
    + intros [= <- <-]. split; [exists []; now rewrite app_nil_r | now eexists].
  - intros h' text. unfold Root.begin_turn.
    destruct (Root.user_message_of data) as [[um|]|e]; try discriminate.
    destruct um; try discriminate. now intros [= <- <-].
  - intros now text. unfold Root.finish_turn.
    destruct (Root.check_and_use_tools w tools text) as [[|c r]|];
      try apply use_llm_appends.
    eexists [_]. cbn. auto.
Qed.

End RootTurn.

(* ================================================================== *)
(** * The Gemini backend *)
(* ================================================================== *)

Section GeminiBackend.
Context {rt : PyRuntime}.
Variable post : list Gemini.content -> Gemini.reply.

(** X18. In [src/mcp-host.py] with Gemini, when the tools give nothing for
    a message, the request holds the new message first, then the shared
    history as it is when the check of the tools returns, less its last
    entry, and the answer is appended to that history.  When nothing was
    appended while the tools were checked, the request holds the history
    before the message; when the handlers of other connections appended
    meanwhile, the message is in the request a second time, and the last
    entry appended is not in it. *)
Theorem gemini_request_of_turn (w : Root.world) (tools : list tool)
  (h meanwhile : list Root.message) (m : string) :
  Root.use_gemini w = true ->
  (forall message earlier,
     Root.query_gemini w message earlier = Gemini.answer post message earlier) ->
  (forall r, Root.check_and_use_tools w tools m = Some r -> r = EmptyString) ->
  Root.begin_turn h (Client.send_message m)
  = Root.Checking (h ++ [Root.user (JStr m)]) m
  /\ Root.finish_turn w tools (h ++ Root.user (JStr m) :: meanwhile) m
     = ((h ++ Root.user (JStr m) :: meanwhile)
        ++ [Root.assistant
              (JStr (Gemini.answer post m
                       (removelast (h ++ Root.user (JStr m) :: meanwhile))))],
        [Root.Llm_response (JStr m)
           (JStr (Gemini.answer post m
                    (removelast (h ++ Root.user (JStr m) :: meanwhile))))])
  /\ Gemini.contents m (removelast (h ++ [Root.user (JStr m)]))
     = {| Gemini.role := "user"; Gemini.text := JStr m |}
       :: (Gemini.turn_content <$> h)
  /\ (forall later x,
        meanwhile = later ++ [x] ->
        Gemini.contents m (removelast (h ++ Root.user (JStr m) :: meanwhile))
        = {| Gemini.role := "user"; Gemini.text := JStr m |}
          :: (Gemini.turn_content <$> h)
          ++ {| Gemini.role := "user"; Gemini.text := JStr m |}
             :: (Gemini.turn_content <$> later)).
Proof.
  intros Hgemini Hquery Hnothing.
  split; [reflexivity|]. split; [|split].
  - unfold Root.finish_turn, Root.use_llm.
    destruct (Root.check_and_use_tools w tools m) as [[|c r]|] eqn:Hcheck.
    + now rewrite Hgemini, Hquery.
    + now specialize (Hnothing _ eq_refl).
    + now rewrite Hgemini, Hquery.
  - now rewrite removelast_last.
  - intros later x ->. unfold Gemini.contents.
    change (h ++ Root.user (JStr m) :: later ++ [x])
      with (h ++ (Root.user (JStr m) :: later) ++ [x]).
    rewrite app_assoc, removelast_last, fmap_app. reflexivity.
Qed.


End GeminiBackend.

Lemma gemini_request_of_turn_witness :
  @Root.finish_turn Fragment.runtime (root_gemini_world gemini_counts)
    [get_products_tool]
    ([Root.user (JStr "a"); Root.assistant (JStr "b")]
     ++ Root.user (JStr "show products")
        :: [Root.user (JStr "x"); Root.assistant (JStr "y")])
    "show products"
  = ([Root.user (JStr "a"); Root.assistant (JStr "b");
      Root.user (JStr "show products");
      Root.user (JStr "x"); Root.assistant (JStr "y");
      Root.assistant (JStr "5")],
     [Root.Llm_response (JStr "show products") (JStr "5")]).
Proof.
  refine (proj1 (proj2 (@gemini_request_of_turn Fragment.runtime gemini_counts
    (root_gemini_world gemini_counts) [get_products_tool]
    [Root.user (JStr "a"); Root.assistant (JStr "b")]
    [Root.user (JStr "x"); Root.assistant (JStr "y")]
    "show products" eq_refl (fun _ _ => eq_refl) _))).
  intros r H. discriminate H.
Defined.


(* ================================================================== *)
(** * The [/products] endpoint and the host *)
(* ================================================================== *)

Section ProductsEndpoint.
Context {rt : PyRuntime}.

Lemma product_line_spec (product : json) :
  ProductServer.product_line product
  = if has_name_and_brand product then Ok (line_of product)
    else ProductServer.product_line product.
Proof.
  destruct product as [ | | | | |d]; try reflexivity. simpl.
  destruct (dict_get "product_name" d); [|reflexivity].
  now destruct (dict_get "brand_name" d).
Qed.

Lemma product_line_raises (product : json) :
  has_name_and_brand product = false ->
  exists e, ProductServer.product_line product = Raise e.
Proof.
  destruct product as [ | | | | |d]; simpl; try (intros _; now eexists).
  destruct (dict_get "product_name" d); [|intros _; now eexists].
  destruct (dict_get "brand_name" d); [discriminate | intros _; now eexists].
Qed.

Lemma concat_empty_cons (x : string) (l : list string) :
  String.concat EmptyString (x :: l) = x +:+ String.concat EmptyString l.
Proof.
  destruct l as [|y l]; [|reflexivity].
  change (x = x +:+ EmptyString). now rewrite append_nil_r.
Qed.

Lemma format_lines_ok (products : list json) :
  Forall (fun p => has_name_and_brand p = true) products ->
  forall formatted,
    ProductServer.format_lines products formatted
    = Ok (formatted +:+ String.concat EmptyString (line_of <$> products)).
Proof.
  induction 1 as [|p products Hp _ IH]; intros formatted.
  - simpl. now rewrite append_nil_r.
  - cbn [ProductServer.format_lines]. rewrite product_line_spec, Hp, IH.
    cbn [fmap list_fmap]. now rewrite concat_empty_cons, append_assoc.
Qed.

Lemma format_lines_raises (products : list json) :
  Exists (fun p => has_name_and_brand p = false) products ->
  forall formatted,
    exists e, ProductServer.format_lines products formatted = Raise e.
Proof.
  induction 1 as [p products Hp|p products _ IH]; intros formatted.
  - cbn [ProductServer.format_lines].
    destruct (product_line_raises p Hp) as [e ->]. now exists e.
  - cbn [ProductServer.format_lines].
    destruct (ProductServer.product_line p); [apply IH | now eexists].
Qed.

(** X20. The endpoint on a list of products, given as such or under the key
    [products] of an object.  When each of the first five products has a
    name and a brand, the answer holds the header and the lines of these
    five, the first ten products as raw data, and the number of products;
    when one of the first five lacks a name or a brand, the endpoint
    raises, which gives the status 500.  The products after the fifth are
    not looked at. *)
Theorem products_content (l : list json) (d : list (string * json)) :
  dict_get "products" d = Some (JList l) ->
  ProductServer.get_products (ProductServer.ApiJson (JObj d))
  = ProductServer.get_products (ProductServer.ApiJson (JList l))
  /\ (Forall (fun p => has_name_and_brand p = true) (take 5 l) ->
      ProductServer.get_products (ProductServer.ApiJson (JList l))
      = Ok {| ProductServer.raw_data := JList (take 10 l);
              ProductServer.formatted_content :=
                ProductServer.header
                +:+ String.concat EmptyString (line_of <$> take 5 l);
              ProductServer.count := length l |})
  /\ (Exists (fun p => has_name_and_brand p = false) (take 5 l) ->
      exists e,
        ProductServer.get_products (ProductServer.ApiJson (JList l))
        = Raise e).
Proof.
  intros Hd. split; [|split].
  - unfold ProductServer.get_products, ProductServer.products_of.
    now rewrite Hd.
  - intros Hall. unfold ProductServer.get_products. cbn.
    now rewrite (format_lines_ok _ Hall).
  - intros Hex. unfold ProductServer.get_products. cbn.
    destruct (format_lines_raises _ Hex ProductServer.header) as [e ->].
    now exists e.
Qed.




End ProductsEndpoint.

Lemma products_content_witness :
  @ProductServer.get_products Fragment.runtime
    (ProductServer.ApiJson (JObj [("products", JList [JObj widget])]))
  = Ok {| ProductServer.raw_data := JList [JObj widget];
          ProductServer.formatted_content :=
            ProductServer.header +:+ "Widget" +:+ ProductServer.tab
            +:+ "$Acme" +:+ Py.nl;
          ProductServer.count := 1 |}.
Proof.
  destruct (@products_content Fragment.runtime [JObj widget]
              [("products", JList [JObj widget])] eq_refl)
    as (Hsame & Hok & _).
  rewrite Hsame. apply Hok. repeat constructor.
Defined.


(* ================================================================== *)
(** * The clients and the hosts *)
(* ================================================================== *)

Section Clients.
Context {rt : PyRuntime}.

Lemma lower_clear_type (user_input : string) :
  Py.lower user_input = "clear" ->
  Client.user_input_handler user_input = Client.Send Client.clear_history.
Proof. intros H. unfold Client.user_input_handler. now rewrite H. Qed.

(** X22. The command [clear] of the console client, in any case of letters,
    sends a frame of type [clear_history].  [src/host/mcp-host.py]
    empties the history of the connection and acknowledges, and the
    client empties its own; [src/mcp-host.py] answers with the error
    [Unknown message format] and keeps its history, and the client,
    which looks for the key [type] of the answer, logs an error. *)
Theorem console_clear (user_input : string) :
  Py.lower user_input = "clear" ->
  Client.user_input_handler user_input = Client.Send Client.clear_history
  /\ (forall w tools h,
        Host.handle_data w tools h Client.clear_history
        = {| Host.history := []; Host.sent := [Host.History_cleared];
             Host.calls := [] |})
  /\ (forall mh,
        Client.receive_messages mh (host_frame_json Host.History_cleared)
        = (JList [], Client.Noted))
  /\ (forall w tools h,
        Root.handle_data w tools h Client.clear_history
        = (h, [Root.Error_frame Root.Unknown_message_format]))
  /\ (forall exn_str mh,
        Client.receive_messages mh
          (root_frame_json exn_str
             (Root.Error_frame Root.Unknown_message_format))
        = (mh, Client.Logged_error (KeyError "type"))).
Proof.
  intros H. split; [now apply lower_clear_type|].
  repeat split; reflexivity.
Qed.

Lemma receive_host_frame (mh : json) (f : Host.frame) :
  (Client.receive_messages mh (host_frame_json f)).1 = mh
  \/ (Client.receive_messages mh (host_frame_json f)).1 = JList [].
Proof. destruct f; cbn; auto. Qed.

Lemma receive_root_frame (exn_str : exn -> string) (mh : json)
  (f : Root.frame) :
  (Client.receive_messages mh (root_frame_json exn_str f)).1 = mh.
Proof. now destruct f. Qed.

(** X23. Neither host sends a frame of type [history]: whatever frames a
    client receives, its [message_history] stays the empty list it starts
    with.  The greeting of [src/host/mcp-host.py] is left unhandled by
    the console client, and every error frame of [src/mcp-host.py] is
    logged as an error of the client, its text is not shown. *)
Theorem client_history_stays_empty :
  (forall frames : list Host.frame,
     fold_left (fun mh f => (Client.receive_messages mh (host_frame_json f)).1)
       frames (JList []) = JList [])
  /\ (forall exn_str (frames : list Root.frame),
        fold_left
          (fun mh f =>
             (Client.receive_messages mh (root_frame_json exn_str f)).1)
          frames (JList []) = JList [])
  /\ (forall mh content,
        Client.receive_messages mh
          (host_frame_json (Host.System_message content))
        = (mh, Client.Unhandled))
  /\ (forall exn_str mh e,
        Client.receive_messages mh (root_frame_json exn_str (Root.Error_frame e))
        = (mh, Client.Logged_error (KeyError "type"))).
Proof.
  split; [|split; [|split]].
  - induction frames as [|f frames IH]; [reflexivity|]. simpl.
    destruct (receive_host_frame (JList []) f) as [-> | ->]; exact IH.
  - intros exn_str. induction frames as [|f frames IH]; [reflexivity|].
    simpl. now rewrite receive_root_frame.
  - reflexivity.
  - reflexivity.
Qed.

(** X24. The graphical client sends the text of its input stripped, and
    nothing when that is empty.  The frame it sends is never skipped by
    [src/host/mcp-host.py]: it starts a turn, and the message enters the
    history as it was sent. *)
Theorem gui_message_starts_turn (input_text : string) :
  match Client.on_send_clicked input_text with
  | Some data =>
      data = Client.send_message (Py.strip input_text)
      /\ kept_content (Py.strip input_text)
      /\ forall w tools h,
           Host.handle_data w tools h data
           = Host.user_turn w tools h (Py.strip input_text)
  | None => Py.strip input_text = EmptyString
  end.
Proof.
  unfold Client.on_send_clicked.
  destruct (Py.nonempty (Py.strip input_text)) eqn:Hne.
  - split; [reflexivity|]. split.
    + split; [apply strip_idem|]. intros E. now rewrite E in Hne.
    + intros w tools h. unfold Client.send_message, Host.handle_data.
      cbn [dict_get String.eqb Ascii.eqb Bool.eqb default id is_str].
      simpl (String.eqb _ _). cbn [default id is_str].
      now rewrite strip_idem, Hne.
  - now destruct (Py.strip input_text).
Qed.

End Clients.

Lemma console_clear_witness :
  Client.user_input_handler "Clear" = Client.Send Client.clear_history.
Proof.
  exact (proj1 (@console_clear Fragment.runtime "Clear" eq_refl)).
Defined.
